(** * deep_research_node: prompt store and research-agent control loop

    A shallow embedding of [PromptManager.py] and [app.py].

    Python [str] values are represented by their UTF-8 byte strings
    ([string] is a list of 8-bit characters).  UTF-8 preserves code-point
    order, so [sorted] on such strings agrees with Python's, and
    [str.encode()] is the identity on this representation.  Paths are
    POSIX paths. *)

From Stdlib Require Import ZArith Lia Ascii String.
From stdpp Require Import base option list strings gmap sorting.


(** ** Python outcomes: a value or a raised exception *)

Inductive PyError : Type :=
  | ValueError (msg : string)
  | KeyError (key : string)
  | IndexError (index : Z)
  | AttributeError (msg : string)
  | TypeError (msg : string)
  | ExternalError (msg : string)
      (* raised by a collaborator outside the two modules: a tool, a model
         client, the file system or the front-matter parser *)
  | Unmodelled (what : string).
      (* behaviour of the Python runtime this development does not describe *)

Inductive result (A : Type) : Type :=
  | Ok (a : A)
  | Raise (e : PyError).
Arguments Ok {A} a.
Arguments Raise {A} e.

Global Instance result_ret : MRet result := fun A a => Ok a.
Global Instance result_bind : MBind result := fun A B f m =>
  match m with
  | Ok a => f a
  | Raise e => Raise e
  end.
Global Instance result_fmap : FMap result := fun A B f m =>
  match m with
  | Ok a => Ok (f a)
  | Raise e => Raise e
  end.

Definition is_Ok {A} (r : result A) : Prop := exists a, r = Ok a.

(** An outcome this development describes: a value, or an exception other
    than [Unmodelled]. *)
Definition described {A} (r : result A) : Prop :=
  forall what, r <> Raise (Unmodelled what).

(** ** hashlib.sha256 (FIPS 180-4), 32-bit words as [Z] with explicit wrap-around *)

Module SHA256.
Local Open Scope Z_scope.

Definition mask32 : Z := 0xFFFFFFFF.
Definition w32 (x : Z) : Z := Z.land x mask32.
Definition add32 (x y : Z) : Z := w32 (x + y).
Definition rotr (n x : Z) : Z :=
  Z.lor (Z.shiftr x n) (w32 (Z.shiftl x (32 - n))).
Definition shr (n x : Z) : Z := Z.shiftr x n.
Definition not32 (x : Z) : Z := Z.lxor x mask32.

Definition Ch (x y z : Z) : Z := Z.lxor (Z.land x y) (Z.land (not32 x) z).
Definition Maj (x y z : Z) : Z :=
  Z.lxor (Z.lxor (Z.land x y) (Z.land x z)) (Z.land y z).
Definition bsig0 (x : Z) : Z := Z.lxor (Z.lxor (rotr 2 x) (rotr 13 x)) (rotr 22 x).
Definition bsig1 (x : Z) : Z := Z.lxor (Z.lxor (rotr 6 x) (rotr 11 x)) (rotr 25 x).
Definition ssig0 (x : Z) : Z := Z.lxor (Z.lxor (rotr 7 x) (rotr 18 x)) (shr 3 x).
Definition ssig1 (x : Z) : Z := Z.lxor (Z.lxor (rotr 17 x) (rotr 19 x)) (shr 10 x).

(** The round constants: the first 32 bits of the fractional parts of the
    cube roots of the first 64 primes (428a2f98 ... c67178f2 in hex). *)
Definition K : list Z :=
  [ 1116352408; 1899447441; 3049323471; 3921009573;
    961987163; 1508970993; 2453635748; 2870763221;
    3624381080; 310598401; 607225278; 1426881987;
    1925078388; 2162078206; 2614888103; 3248222580;
    3835390401; 4022224774; 264347078; 604807628;
    770255983; 1249150122; 1555081692; 1996064986;
    2554220882; 2821834349; 2952996808; 3210313671;
    3336571891; 3584528711; 113926993; 338241895;
    666307205; 773529912; 1294757372; 1396182291;
    1695183700; 1986661051; 2177026350; 2456956037;
    2730485921; 2820302411; 3259730800; 3345764771;
    3516065817; 3600352804; 4094571909; 275423344;
    430227734; 506948616; 659060556; 883997877;
    958139571; 1322822218; 1537002063; 1747873779;
    1955562222; 2024104815; 2227730452; 2361852424;
    2428436474; 2756734187; 3204031479; 3329325298 ].

(** The eight working variables / the chaining value. *)
Record state : Type := State {
  ha : Z; hb : Z; hc : Z; hd : Z; he : Z; hf : Z; hg : Z; hh : Z
}.

Definition H0 : state :=
  State 0x6a09e667 0xbb67ae85 0x3c6ef372 0xa54ff53a
        0x510e527f 0x9b05688c 0x1f83d9ab 0x5be0cd19.

(** Padding: the byte 0x80, zero bytes up to 56 mod 64, then the bit
    length as a 64-bit big-endian integer. *)
Definition be_bytes (n : nat) (x : Z) : list Z :=
  map (fun i => Z.land (Z.shiftr x (8 * Z.of_nat i)) 0xFF) (rev (seq 0 n)).

Definition pad (msg : list Z) : list Z :=
  let len := Z.of_nat (length msg) in
  let zeros := Z.to_nat ((55 - len) mod 64) in
  msg ++ [0x80] ++ repeat 0 zeros ++ be_bytes 8 (8 * len).

Fixpoint be_words (bytes : list Z) : list Z :=
  match bytes with
  | b0 :: b1 :: b2 :: b3 :: rest =>
      Z.lor (Z.shiftl b0 24) (Z.lor (Z.shiftl b1 16) (Z.lor (Z.shiftl b2 8) b3))
        :: be_words rest
  | _ => []
  end.

Fixpoint blocks (fuel : nat) (words : list Z) : list (list Z) :=
  match fuel, words with
  | S fuel', _ :: _ => take 16 words :: blocks fuel' (drop 16 words)
  | _, _ => []
  end.

(** Message schedule, most recent word first. *)
Definition schedule_step (rev_w : list Z) : list Z :=
  match rev_w with
  | w1 :: w2 :: _ =>
      let w7 := nth 6 rev_w 0 in
      let w15 := nth 14 rev_w 0 in
      let w16 := nth 15 rev_w 0 in
      add32 (add32 (add32 (ssig1 w2) w7) (ssig0 w15)) w16 :: rev_w
  | _ => rev_w
  end.

Definition schedule (block : list Z) : list Z :=
  rev (Nat.iter 48 schedule_step (rev block)).

Definition round (s : state) (kw : Z * Z) : state :=
  let t1 := add32 (add32 (add32 (add32 (hh s) (bsig1 (he s)))
                                (Ch (he s) (hf s) (hg s))) (fst kw)) (snd kw) in
  let t2 := add32 (bsig0 (ha s)) (Maj (ha s) (hb s) (hc s)) in
  State (add32 t1 t2) (ha s) (hb s) (hc s) (add32 (hd s) t1) (he s) (hf s) (hg s).

Definition compress (h : state) (block : list Z) : state :=
  let s := fold_left round (combine K (schedule block)) h in
  State (add32 (ha h) (ha s)) (add32 (hb h) (hb s))
        (add32 (hc h) (hc s)) (add32 (hd h) (hd s))
        (add32 (he h) (he s)) (add32 (hf h) (hf s))
        (add32 (hg h) (hg s)) (add32 (hh h) (hh s)).

Definition digest (msg : list Z) : state :=
  let words := be_words (pad msg) in
  fold_left compress (blocks (length words) words) H0.

Definition hexdigit (x : Z) : ascii :=
  match Z.land x 0xF with
  | 0 => "0" | 1 => "1" | 2 => "2" | 3 => "3"
  | 4 => "4" | 5 => "5" | 6 => "6" | 7 => "7"
  | 8 => "8" | 9 => "9" | 10 => "a" | 11 => "b"
  | 12 => "c" | 13 => "d" | 14 => "e" | _ => "f"
  end%char.

Definition hex8 (x : Z) (tail : string) : string :=
  String (hexdigit (Z.shiftr x 28)) (String (hexdigit (Z.shiftr x 24))
  (String (hexdigit (Z.shiftr x 20)) (String (hexdigit (Z.shiftr x 16))
  (String (hexdigit (Z.shiftr x 12)) (String (hexdigit (Z.shiftr x 8))
  (String (hexdigit (Z.shiftr x 4)) (String (hexdigit x) tail))))))).

Definition bytes_of_string (s : string) : list Z :=
  map (fun c => Z.of_N (N_of_ascii c)) (list_ascii_of_string s).

(** [hashlib.sha256(data).hexdigest()] *)
Definition hexdigest (data : string) : string :=
  let s := digest (bytes_of_string data) in
  hex8 (ha s) (hex8 (hb s) (hex8 (hc s) (hex8 (hd s)
    (hex8 (he s) (hex8 (hf s) (hex8 (hg s) (hex8 (hh s) EmptyString))))))).
End SHA256.

(** [s[:n]] *)
Definition slice_to (n : nat) (s : string) : string := String.substring 0 n s.

(** The fingerprint of [_load_prompt_file]:
    [hashlib.sha256(content.encode()).hexdigest()[:12]]. *)
Definition content_hash_of (content : string) : string :=
  slice_to 12 (SHA256.hexdigest content).

(** ** Python string helpers *)

Definition newline : string := String "010" EmptyString.

(** [sep.join(parts)] *)
Definition join (sep : string) (parts : list string) : string :=
  String.concat sep parts.

(** [str.isspace] on the ASCII range: TAB, LF, VT, FF, CR, FS, GS, RS, US
    and SPACE. *)
Definition isspace (c : ascii) : bool :=
  let n := N_of_ascii c in
  ((9 <=? n) && (n <=? 13) || (28 <=? n) && (n <=? 32))%N.

(** The white space outside ASCII, by its UTF-8 bytes: U+0085 and U+00A0
    take two bytes (C2 85, C2 A0). *)
Definition isspace2 (a b : ascii) : bool :=
  let '(x, y) := (N_of_ascii a, N_of_ascii b) in
  ((x =? 194) && ((y =? 133) || (y =? 160)))%N.

(** U+1680 (E1 9A 80), U+2000 to U+200A, U+2028, U+2029 and U+202F
    (E2 80 80 to 8A, A8, A9, AF), U+205F (E2 81 9F) and U+3000 (E3 80 80)
    take three. *)
Definition isspace3 (a b c : ascii) : bool :=
  let '(x, y, z) := (N_of_ascii a, N_of_ascii b, N_of_ascii c) in
  ((x =? 225) && (y =? 154) && (z =? 128)
   || (x =? 226) && (y =? 128)
      && ((128 <=? z) && (z <=? 138) || (z =? 168) || (z =? 169) || (z =? 175))
   || (x =? 226) && (y =? 129) && (z =? 159)
   || (x =? 227) && (y =? 128) && (z =? 128))%N.

(** Drop the white space a string starts with; [two] and [three] recognise
    the characters of two and three bytes. *)
Fixpoint skip_space (two : ascii → ascii → bool)
    (three : ascii → ascii → ascii → bool) (s : string) : string :=
  match s with
  | String a s1 =>
      if isspace a then skip_space two three s1
      else match s1 with
           | String b s2 =>
               if two a b then skip_space two three s2
               else match s2 with
                    | String c s3 =>
                        if three a b c then skip_space two three s3 else s
                    | EmptyString => s
                    end
           | EmptyString => s
           end
  | EmptyString => EmptyString
  end.

(** [s.lstrip()] *)
Definition lstrip (s : string) : string := skip_space isspace2 isspace3 s.

(** [s.rstrip()]: the same from the end, where the bytes of a character
    come in reverse. *)
Definition rstrip (s : string) : string :=
  String.rev (skip_space (fun b a => isspace2 a b) (fun c b a => isspace3 a b c)
                (String.rev s)).

(** [s.strip()] *)
Definition strip (s : string) : string := rstrip (lstrip s).

(** [s.startswith(p)] *)
Definition startswith (s p : string) : bool := String.prefix p s.

(** [s.endswith(p)] *)
Definition endswith (s p : string) : bool :=
  String.prefix (String.rev p) (String.rev s).

(** [s.replace(old, new)] for a non-empty [old]: occurrences are replaced
    left to right without overlap.  [skip] counts the characters of a
    matched occurrence still to be dropped. *)
Fixpoint replace_go (old new : string) (skip : nat) (s : string) : string :=
  match s with
  | EmptyString => EmptyString
  | String c s' =>
      match skip with
      | S k => replace_go old new k s'
      | O =>
          if String.prefix old s
          then new +:+ replace_go old new (String.length old - 1) s'
          else String c (replace_go old new 0 s')
      end
  end.

Definition replace (s old new : string) : string := replace_go old new 0 s.

(** [os.path.join(a, b)] of [posixpath]: an absolute [b] replaces [a]; no
    separator is added after an empty [a] or one that ends in a slash. *)
Definition path_join (a b : string) : string :=
  if startswith b "/" then b
  else if String.eqb a EmptyString || endswith a "/" then a +:+ b
  else a +:+ "/" +:+ b.

(** ** PromptManager.py: data model *)

(** [@dataclass PromptTemplate] *)
Record PromptTemplate : Type := mkPromptTemplate {
  name : string;
  version : string;
  template : string;
  author : string;
  date : string;
  changes : string;
  tags : list string;
  model_hints : gmap string string;
  content_hash : string;
  file_path : string
}.

(** The front-matter metadata of a prompt file: every key is optional
    ([metadata.get(key, default)]). *)
Record Metadata : Type := mkMetadata {
  md_author : option string;
  md_date : option string;
  md_changes : option string;
  md_tags : option (list string);
  md_model_hints : option (gmap string string)
}.

(** What [frontmatter.load] returns. *)
Record Post : Type := mkPost {
  post_metadata : Metadata;
  post_content : string
}.

(** A value [yaml.safe_load] can put under the [latest] key.  Of a value
    that is not a string [get_prompt] observes three things: its truth
    value, whether it can be hashed (the membership test on the cache) and
    its [str()] (in the error message). *)
Inductive Declared : Type :=
  | Str (version : string)
  | Hashable (truth : bool) (shown : string)
      (* a number, a boolean, a date, bytes *)
  | Unhashable (truth : bool) (type_name : string).
      (* a list, a dict, a set *)

(** A mapping under a prompt name: [config.get("latest", None)], where a
    [latest:] left empty is [None] as well. *)
Record PromptConfig : Type := mkPromptConfig {
  latest : option Declared
}.

(** One entry of [manifest["prompts"]].  YAML does not force it to be a
    mapping: [name:] alone loads as [None], and a scalar or a list can
    stand there too; [type_name] is the Python type of such a value. *)
Inductive ManifestEntry : Type :=
  | Mapping (config : PromptConfig)
  | NotAMapping (type_name : string).

(** [self.manifest]: the keys ["prompts"] and ["settings"]. *)
Record Manifest : Type := mkManifest {
  prompts : gmap string ManifestEntry;
  settings : gmap string string
}.

(** The part of the file system the manager reads: the parsed manifest when
    [manifest.yaml] exists, and for each existing prompt directory its
    listing, each file with the outcome of opening and parsing it.  The
    manifest is a mapping with a mapping (or nothing) under ["prompts"], and
    each existing path is a directory: otherwise [__init__] raises and there
    is no manager. *)
Record FileSystem : Type := mkFileSystem {
  fs_manifest : option Manifest;
  fs_listdir : gmap string (list (string * result Post))
}.

(** [class PromptManager] *)
Record PromptManager : Type := mkPromptManager {
  prompts_dir : string;
  cache : gmap string (gmap string PromptTemplate);
  manifest : Manifest
}.

(** ** PromptManager.py: loading *)

(** [_load_manifest] *)
Definition _load_manifest (fs : FileSystem) : Manifest :=
  match fs_manifest fs with
  | Some m => m
  | None => mkManifest ∅ ∅
  end.

(** [_load_prompt_file]; [opened] is the outcome of [open] and
    [frontmatter.load] on [file_path]. *)
Definition _load_prompt_file (name version file_path : string)
    (opened : result Post) : result PromptTemplate :=
  post ← opened;
  let metadata := post_metadata post in
  let content := strip (post_content post) in
  let content_hash := content_hash_of content in
  mret (mkPromptTemplate
          name version content
          (default "unknown" (md_author metadata))
          (default "unknown" (md_date metadata))
          (default EmptyString (md_changes metadata))
          (default [] (md_tags metadata))
          (default ∅ (md_model_hints metadata))
          content_hash file_path).

(** The body of the loop over [os.listdir(prompt_dir)]: [versions] is
    [self.cache[prompt_name]]. *)
Definition load_version_file (prompts_dir prompt_name : string)
    (versions : gmap string PromptTemplate) (entry : string * result Post)
    : gmap string PromptTemplate :=
  let filename := entry.1 in
  if endswith filename ".md" then
    let version := replace filename ".md" EmptyString in
    let file_path := path_join (path_join prompts_dir prompt_name) filename in
    match _load_prompt_file prompt_name version file_path entry.2 with
    | Ok prompt_template => <[version := prompt_template]> versions
    | Raise _ => versions   (* except Exception: print and go on *)
    end
  else versions.

(** The body of the loop over [prompts_config.items()]. *)
Definition load_prompt_dir (fs : FileSystem) (prompts_dir : string)
    (cache : gmap string (gmap string PromptTemplate))
    (item : string * ManifestEntry) : gmap string (gmap string PromptTemplate) :=
  let prompt_name := item.1 in
  match fs_listdir fs !! prompt_name with
  | None => cache                                   (* continue *)
  | Some listing =>
      <[prompt_name :=
          foldl (load_version_file prompts_dir prompt_name) ∅ listing]> cache
  end.

(** [_load_all_prompts], started from the cache [cache0]. *)
Definition _load_all_prompts (fs : FileSystem) (prompts_dir : string)
    (manifest : Manifest) (cache0 : gmap string (gmap string PromptTemplate))
    : gmap string (gmap string PromptTemplate) :=
  let prompts_config := prompts manifest in
  foldl (load_prompt_dir fs prompts_dir) cache0 (map_to_list prompts_config).

(** [PromptManager.__init__] *)
Definition PromptManager_init (fs : FileSystem) (prompts_dir : string)
    : PromptManager :=
  let manifest := _load_manifest fs in
  mkPromptManager prompts_dir (_load_all_prompts fs prompts_dir manifest ∅) manifest.

(** [reload]: clear the cache, then load again from the (possibly changed)
    file system. *)
Definition reload (fs : FileSystem) (pm : PromptManager) : PromptManager :=
  let manifest := _load_manifest fs in
  mkPromptManager (prompts_dir pm)
    (_load_all_prompts fs (prompts_dir pm) manifest ∅) manifest.

(** ** PromptManager.py: lookups *)

(** The truth value [if not version] tests: [None] and the empty string
    are false. *)
Definition truthy (v : option Declared) : bool :=
  match v with
  | Some (Str s) => negb (String.eqb s EmptyString)
  | Some (Hashable truth _) | Some (Unhashable truth _) => truth
  | None => false
  end.

(** [sorted(versions)] on strings. *)
Definition sorted (l : list string) : list string := merge_sort String.le l.

Definition quoted (s : string) : string := "'" +:+ s +:+ "'".

Definition prompt_not_found (name : string) : PyError :=
  ValueError ("Prompt " +:+ quoted name +:+ " not found").
Definition no_versions_found (name : string) : PyError :=
  ValueError ("No versions found for prompt " +:+ quoted name).
Definition version_not_found (version name : string) : PyError :=
  ValueError ("Version " +:+ quoted version +:+ " not found for prompt " +:+ quoted name).

(** [sorted(versions)[-1]] of the fallback branch, or the error raised when
    [versions] is empty. *)
Definition highest_version (name : string) (loaded : gmap string PromptTemplate)
    : result string :=
  let versions := (map_to_list loaded).*1 in
  match last (sorted versions) with
  | Some version => Ok version
  | None => Raise (no_versions_found name)
  end.

Definition no_attribute_get (type_name : string) : PyError :=
  AttributeError (quoted type_name +:+ " object has no attribute 'get'").
Definition unhashable_type (type_name : string) : PyError :=
  TypeError ("unhashable type: " +:+ quoted type_name).

(** [self.manifest.get("prompts", {}).get(name, {}).get("latest", None)]:
    the default [{}] stands in for a name the manifest does not have, not
    for an entry that is there and is no mapping. *)
Definition manifest_latest (pm : PromptManager) (name : string)
    : result (option Declared) :=
  match prompts (manifest pm) !! name with
  | None => Ok None
  | Some (Mapping prompt_config) => Ok (latest prompt_config)
  | Some (NotAMapping type_name) => Raise (no_attribute_get type_name)
  end.

(** The body of [if version is None or version == "latest"]: the manifest's
    [latest] entry when it is truthy, the fallback otherwise.  The keys of
    the cache are strings, so a truthy entry of another type fails the
    membership test that follows: it raises from there, [TypeError] if it
    cannot be hashed. *)
Definition latest_version (pm : PromptManager) (name : string)
    (loaded : gmap string PromptTemplate) : result string :=
  declared ← manifest_latest pm name;
  if truthy declared then
    match declared with
    | Some (Str version) => Ok version
    | Some (Hashable _ shown) => Raise (version_not_found shown name)
    | Some (Unhashable _ type_name) => Raise (unhashable_type type_name)
    | None => highest_version name loaded
    end
  else highest_version name loaded.

(** The version string [get_prompt] looks up. *)
Definition resolve_version (pm : PromptManager) (name : string)
    (loaded : gmap string PromptTemplate) (version : option string)
    : result string :=
  match version with
  | None => latest_version pm name loaded
  | Some v =>
      if String.eqb v "latest" then latest_version pm name loaded else Ok v
  end.

(** [get_prompt] *)
Definition get_prompt (pm : PromptManager) (name : string)
    (version : option string) : result PromptTemplate :=
  match cache pm !! name with
  | None => Raise (prompt_not_found name)
  | Some loaded =>
      version ← resolve_version pm name loaded version;
      match loaded !! version with
      | None => Raise (version_not_found version name)
      | Some prompt => Ok prompt
      end
  end.

(** [list_prompts]; as a set, the order of the keys is not modelled. *)
Definition list_prompts (pm : PromptManager) : gset string := dom (cache pm).

(** [list_versions] *)
Definition list_versions (pm : PromptManager) (name : string)
    : result (list string) :=
  match cache pm !! name with
  | None => Raise (prompt_not_found name)
  | Some loaded => Ok (sorted (map_to_list loaded).*1)
  end.

(** One entry of the dictionary returned by [get_changelog]. *)
Record ChangelogEntry : Type := mkChangelogEntry {
  cl_date : string;
  cl_author : string;
  cl_changes : string
}.

(** [get_changelog] *)
Definition get_changelog (pm : PromptManager) (name : string)
    : result (gmap string ChangelogEntry) :=
  match cache pm !! name with
  | None => Raise (prompt_not_found name)
  | Some loaded =>
      Ok ((fun template =>
             mkChangelogEntry (date template) (author template) (changes template))
          <$> loaded)
  end.

(** ** str.format with keyword arguments

    The replacement-field scanner of CPython's [str.format], run with an
    empty positional tuple and string-valued keyword arguments.  The
    scanner yields literal text and replacement fields from left to right;
    each field is looked up and written as soon as it is yielded, so the
    first failure in reading order is the one raised.  What is not
    described gives [Unmodelled]: a format specification that is not
    empty, [!r] and [!a], attribute and item access, and field names
    written with digits outside ASCII. *)

Inductive Markup : Type :=
  | Literal (text : string)
  | Field (field_name : string) (conversion : option ascii)
          (format_spec : string) (spec_has_fields : bool).

Inductive Scan : Type :=
  | InText (lit : string)
  | AfterOpen (lit : string)
  | AfterClose (lit : string)
  | InName (fname : string) (in_bracket : bool)
  | AfterBang (fname : string)
  | AfterConv (fname : string) (conv : ascii)
  | InSpec (fname : string) (conv : option ascii) (spec : string)
           (depth : nat) (nested : bool).

Inductive Step : Type :=
  | Next (emitted : list Markup) (st : Scan)
  | Fail (e : PyError).

Definition snoc (s : string) (c : ascii) : string := s +:+ String c EmptyString.

Definition is_char (c d : ascii) : bool := Ascii.eqb c d.

(** One character of a field name ([parse_field]). *)
Definition name_step (fname : string) (in_bracket : bool) (c : ascii) : Step :=
  if in_bracket then
    Next [] (InName (snoc fname c) (negb (is_char c "]")))
  else if is_char c "{" then Fail (ValueError "unexpected '{' in field name")
  else if is_char c "[" then Next [] (InName (snoc fname c) true)
  else if is_char c "}" then Next [Field fname None EmptyString false] (InText EmptyString)
  else if is_char c ":" then Next [] (InSpec fname None EmptyString 1 false)
  else if is_char c "!" then Next [] (AfterBang fname)
  else Next [] (InName (snoc fname c) false).

Definition scan_step (st : Scan) (c : ascii) : Step :=
  match st with
  | InText lit =>
      if is_char c "{" then Next [] (AfterOpen lit)
      else if is_char c "}" then Next [] (AfterClose lit)
      else Next [] (InText (snoc lit c))
  | AfterOpen lit =>
      if is_char c "{" then Next [] (InText (snoc lit c))
      else match name_step EmptyString false c with
           | Next emitted st' => Next (Literal lit :: emitted) st'
           | Fail e => Fail e
           end
  | AfterClose lit =>
      if is_char c "}" then Next [] (InText (snoc lit c))
      else Fail (ValueError "Single '}' encountered in format string")
  | InName fname in_bracket => name_step fname in_bracket c
  | AfterBang fname => Next [] (AfterConv fname c)
  | AfterConv fname conv =>
      if is_char c "}" then Next [Field fname (Some conv) EmptyString false] (InText EmptyString)
      else if is_char c ":" then Next [] (InSpec fname (Some conv) EmptyString 1 false)
      else Fail (ValueError "expected ':' after conversion specifier")
  | InSpec fname conv spec depth nested =>
      if is_char c "{" then Next [] (InSpec fname conv (snoc spec c) (S depth) true)
      else if is_char c "}" then
        match depth with
        | 1 => Next [Field fname conv spec nested] (InText EmptyString)
        | _ => Next [] (InSpec fname conv (snoc spec c) (pred depth) nested)
        end
      else Next [] (InSpec fname conv (snoc spec c) depth nested)
  end.

(** The end of the format string. *)
Definition scan_end (st : Scan) : list Markup * option PyError :=
  match st with
  | InText lit => ([Literal lit], None)
  | AfterOpen _ => ([], Some (ValueError "Single '{' encountered in format string"))
  | AfterClose _ => ([], Some (ValueError "Single '}' encountered in format string"))
  | InName _ _ => ([], Some (ValueError "expected '}' before end of string"))
  | AfterBang _ =>
      ([], Some (ValueError "end of string while looking for conversion specifier"))
  | AfterConv _ _ | InSpec _ _ _ _ _ =>
      ([], Some (ValueError "unmatched '{' in format spec"))
  end.

(** The markup yielded before the scanner stops, and the error it stops
    with, if any. *)
Fixpoint markup_go (st : Scan) (s : string) : list Markup * option PyError :=
  match s with
  | EmptyString => scan_end st
  | String c s' =>
      match scan_step st c with
      | Next emitted st' =>
          let rest := markup_go st' s' in (emitted ++ rest.1, rest.2)
      | Fail e => ([], Some e)
      end
  end.

Definition markups (body : string) : list Markup * option PyError :=
  markup_go (InText EmptyString) body.

(** The first component of a field name: everything before the first
    ['.'] or ['[']. *)
Fixpoint split_first (fname : string) : string * string :=
  match fname with
  | EmptyString => (EmptyString, EmptyString)
  | String c rest =>
      if is_char c "." || is_char c "[" then (EmptyString, fname)
      else let p := split_first rest in (String c p.1, p.2)
  end.

Definition is_digit (c : ascii) : bool :=
  let n := N_of_ascii c in ((48 <=? n) && (n <=? 57))%N.

Fixpoint all_digits (s : string) : bool :=
  match s with
  | EmptyString => true
  | String c s' => is_digit c && all_digits s'
  end.

Fixpoint int_of_digits (acc : N) (s : string) : N :=
  match s with
  | EmptyString => acc
  | String c s' => int_of_digits (10 * acc + (N_of_ascii c - 48))%N s'
  end.

(** A first component that holds an ASCII character other than a digit is
    a name whatever else it holds. *)
Fixpoint has_ascii_nondigit (s : string) : bool :=
  match s with
  | EmptyString => false
  | String c s' =>
      (N_of_ascii c <? 128)%N && negb (is_digit c) || has_ascii_nondigit s'
  end.

(** [get_field_object]: an empty or numeric first component is a
    positional index, anything else a key of [kwargs].  Numeric means made
    of decimal digits of any script; which characters outside ASCII are
    such digits is not described here, so a component of ASCII digits and
    other bytes only is left open. *)
Definition get_field_object (kwargs : gmap string string) (fname : string)
    : result string :=
  let p := split_first fname in
  if all_digits p.1 then
    if Nat.ltb 18 (String.length p.1)
    then Raise (Unmodelled "index beyond the range of Py_ssize_t")
    else Raise (IndexError (Z.of_N (int_of_digits 0 p.1)))
  else if has_ascii_nondigit p.1 then
    match kwargs !! p.1 with
    | None => Raise (KeyError p.1)
    | Some value =>
        if String.eqb p.2 EmptyString then Ok value
        else Raise (Unmodelled "attribute or item access on a str")
    end
  else Raise (Unmodelled "decimal digits outside ASCII").

(** [do_conversion] on a [str]. *)
Definition do_conversion (value : string) (conv : option ascii) : result string :=
  match conv with
  | None => Ok value
  | Some c =>
      if is_char c "s" then Ok value
      else if is_char c "r" || is_char c "a"
      then Raise (Unmodelled "repr or ascii of a str")
      else Raise (ValueError ("Unknown conversion specifier " +:+ String c EmptyString))
  end.

(** [render_field] on a [str], that is [format(value, spec)]: only the
    empty format specification is described. *)
Definition render_field (value spec : string) : result string :=
  if String.eqb spec EmptyString then Ok value
  else Raise (Unmodelled "format specification mini-language").

(** [output_markup]: look the object up, convert it, expand the format
    specification when it holds replacement fields of its own, and write
    the formatted value.  [expand] is [build_string] one level down. *)
Definition output_markup (expand : string → result string)
    (kwargs : gmap string string) (fname : string)
    (conv : option ascii) (spec : string) (nested : bool) : result string :=
  fieldobj ← get_field_object kwargs fname;
  converted ← do_conversion fieldobj conv;
  actual_spec ← (if nested then expand spec else Ok spec);
  render_field converted actual_spec.

(** [do_markup]: write what the scanner yields, then raise what it stopped
    with. *)
Fixpoint do_markup (expand : string → result string)
    (kwargs : gmap string string) (items : list Markup)
    (stopped : option PyError) (out : string) : result string :=
  match items with
  | [] => match stopped with
          | None => Ok out
          | Some e => Raise e
          end
  | Literal text :: items' => do_markup expand kwargs items' stopped (out +:+ text)
  | Field fname conv spec nested :: items' =>
      text ← output_markup expand kwargs fname conv spec nested;
      do_markup expand kwargs items' stopped (out +:+ text)
  end.

(** [build_string]: [recursion_depth] is 2 for the format string itself
    and 1 for a format specification inside it. *)
Fixpoint build_string (recursion_depth : nat) (kwargs : gmap string string)
    (body : string) : result string :=
  match recursion_depth with
  | O => Raise (ValueError "Max string recursion exceeded")
  | S depth =>
      let m := markups body in
      do_markup (build_string depth kwargs) kwargs m.1 m.2 EmptyString
  end.

(** [body.format] applied to the unpacked [kwargs] *)
Definition format (body : string) (kwargs : gmap string string) : result string :=
  build_string 2 kwargs body.

(** [PromptTemplate.render] *)
Definition render (self : PromptTemplate) (kwargs : gmap string string)
    : result string :=
  format (template self) kwargs.

(** The keys a format string asks for: the first component of every
    replacement field the scanner yields. *)
Definition field_keys (body : string) : list string :=
  omap (fun m => match m with
                 | Literal _ => None
                 | Field fname _ _ _ => Some (split_first fname).1
                 end) (markups body).1.

(** The named placeholders: the keys that are not positional indices. *)
Definition placeholders (body : string) : list string :=
  filter (fun key => all_digits key = false) (field_keys body).

(** The keys asked for when the format specification of a field is
    expanded: those of the specification's own replacement fields. *)
Definition spec_keys (m : Markup) : list string :=
  match m with
  | Field _ _ spec true => field_keys spec
  | _ => []
  end.

(** Every key [format] can look up on a body: the keys of its fields and
    of the fields in their format specifications.  Fields nested deeper
    are never reached ("Max string recursion exceeded"). *)
Definition all_keys (body : string) : list string :=
  field_keys body ++ ((markups body).1 ≫= spec_keys).

(** ** app.py: messages and the researcher state *)

(** A tool-call request of an assistant turn: the keys ["name"], ["args"]
    and ["id"]. *)
Record ToolCall : Type := mkToolCall {
  tc_name : string;
  tc_args : list (string * string);
  tc_id : string
}.

(** The message classes of [langchain_core.messages] the module uses. *)
Inductive Message : Type :=
  | SystemMessage (content : string)
  | HumanMessage (content : string)
  | AIMessage (content : string) (tool_calls : list ToolCall)
  | ToolMessage (content : string) (tool_name : string) (tool_call_id : string).

(** [m.content] *)
Definition content (m : Message) : string :=
  match m with
  | SystemMessage c | HumanMessage c | AIMessage c _ | ToolMessage c _ _ => c
  end.

(** [m.type] *)
Definition msg_type (m : Message) : string :=
  match m with
  | SystemMessage _ => "system"
  | HumanMessage _ => "human"
  | AIMessage _ _ => "ai"
  | ToolMessage _ _ _ => "tool"
  end.

(** [m.tool_calls]: an attribute of assistant messages only. *)
Definition tool_calls (m : Message) : result (list ToolCall) :=
  match m with
  | AIMessage _ calls => Ok calls
  | _ => Raise (AttributeError "object has no attribute 'tool_calls'")
  end.

(** [filter_messages(messages, include_types=...)] *)
Definition filter_messages (messages : list Message) (include_types : list string)
    : list Message :=
  filter (fun m => msg_type m ∈ include_types) messages.

(** [messages[-1]] *)
Definition last_message (messages : list Message) : result Message :=
  match last messages with
  | Some m => Ok m
  | None => Raise (IndexError (-1))
  end.

(** The keys of the state dictionary, as [initial_state] lists them. *)
Record ResearcherState : Type := mkResearcherState {
  researcher_messages : list Message;
  tool_call_iterations : Z;
  research_topic : string;
  compressed_research : string;
  raw_notes : list string;
  qa_report : string
}.

(** The partial state a node returns: only the keys it sets. *)
Record Update : Type := mkUpdate {
  upd_researcher_messages : option (list Message);
  upd_compressed_research : option string;
  upd_raw_notes : option (list string);
  upd_qa_report : option string
}.

Definition no_update : Update := mkUpdate None None None None.

(** Modelled from the spec: the state schema [state_research.ResearcherState]
    and its reducers are not among the sources.  The conversation is
    append-only: the messages a node returns are appended; the compression
    and assessment fields are set. *)
Definition apply_update (state : ResearcherState) (u : Update) : ResearcherState :=
  mkResearcherState
    (researcher_messages state ++ default [] (upd_researcher_messages u))
    (tool_call_iterations state)
    (research_topic state)
    (default (compressed_research state) (upd_compressed_research u))
    (default (raw_notes state) (upd_raw_notes u))
    (default (qa_report state) (upd_qa_report u)).

(** The collaborators of the module: the prompt files on disk, the clock,
    the registered tools and the three chat models. *)
Record Env : Type := mkEnv {
  env_fs : FileSystem;
  get_today_str : string;
  tools_by_name : gmap string (list (string * string) → result string);
  model_with_tools : list Message → result Message;
  compress_model : list Message → result Message;
  qa_model : list Message → result Message
}.

(** [PromptManager()] with the default directory. *)
Definition new_prompt_manager (env : Env) : PromptManager :=
  PromptManager_init (env_fs env) "prompts".

(** ** app.py: the nodes *)

(** [llm_call] *)
Definition llm_call (env : Env) (state : ResearcherState) : result Update :=
  let prompt_manager := new_prompt_manager env in
  prompt ← get_prompt prompt_manager "research_agent_prompt_user" (Some "v1.0.0");
  research_agent_prompt ← render prompt {[ "date" := get_today_str env ]};
  response ← model_with_tools env
    ([SystemMessage research_agent_prompt] ++ researcher_messages state);
  Ok (mkUpdate (Some [response]) None None None).

(** The first loop of [tool_node]: look each tool up and invoke it, in
    order; the first exception ends the loop. *)
Fixpoint invoke_tools
    (tools : gmap string (list (string * string) → result string))
    (calls : list ToolCall) : result (list string) :=
  match calls with
  | [] => Ok []
  | tool_call :: calls' =>
      tool ← match tools !! tc_name tool_call with
             | Some tool => Ok tool
             | None => Raise (KeyError (tc_name tool_call))
             end;
      observation ← tool (tc_args tool_call);
      observations ← invoke_tools tools calls';
      Ok (observation :: observations)
  end.

(** The comprehension of [tool_node] over [zip(observations, tool_calls)]. *)
Definition tool_outputs (observations : list string) (calls : list ToolCall)
    : list Message :=
  zip_with (fun observation tool_call =>
              ToolMessage observation (tc_name tool_call) (tc_id tool_call))
           observations calls.

(** [tool_node] *)
Definition tool_node (env : Env) (state : ResearcherState) : result Update :=
  last_msg ← last_message (researcher_messages state);
  calls ← tool_calls last_msg;
  observations ← invoke_tools (tools_by_name env) calls;
  Ok (mkUpdate (Some (tool_outputs observations calls)) None None None).

(** The [raw_notes] comprehension of [compress_research]. *)
Definition collect_raw_notes (messages : list Message) : list string :=
  content <$> filter_messages messages ["tool"; "ai"].

(** [compress_research] *)
Definition compress_research (env : Env) (state : ResearcherState) : result Update :=
  let prompt_manager := new_prompt_manager env in
  compress_research_system_prompt ←
    get_prompt prompt_manager "compress_research_prompt_system" (Some "v1.0.0");
  system_message ←
    render compress_research_system_prompt {[ "date" := get_today_str env ]};
  user_prompt ←
    get_prompt prompt_manager "compress_research_prompt_user" (Some "v1.0.0");
  compress_research_human_message ←
    render user_prompt {[ "research_topic" := research_topic state ]};
  let messages :=
    [SystemMessage system_message] ++ researcher_messages state
      ++ [HumanMessage compress_research_human_message] in
  response ← compress_model env messages;
  let raw_notes := collect_raw_notes (researcher_messages state) in
  Ok (mkUpdate None (Some (content response)) (Some [join newline raw_notes]) None).

(** The [messages] that [assess_quality] hands to the QA model. *)
Definition assess_quality_messages (env : Env) (state : ResearcherState)
    : result (list Message) :=
  let prompt_manager := new_prompt_manager env in
  geologic_qa_prompt ←
    get_prompt prompt_manager "geologic_qa_prompt_user" (Some "v1.0.0");
  qa_prompt_content ←
    render geologic_qa_prompt {[ "research_report" := compressed_research state ]};
  Ok [HumanMessage qa_prompt_content].

(** [assess_quality] *)
Definition assess_quality (env : Env) (state : ResearcherState) : result Update :=
  messages ← assess_quality_messages env state;
  response ← qa_model env messages;
  Ok (mkUpdate None None None (Some (content response))).

(** ** app.py: routing and the graph *)

(** [should_continue] *)
Definition should_continue (state : ResearcherState) : result string :=
  let messages := researcher_messages state in
  last_msg ← last_message messages;
  calls ← tool_calls last_msg;
  match calls with
  | _ :: _ => Ok "tool_node"
  | [] => Ok "compress_research"
  end.

Inductive Node : Type :=
  | START
  | node_llm_call
  | node_tool_node
  | node_compress_research
  | node_assess_quality
  | END.

(** The mapping given to [add_conditional_edges]. *)
Definition conditional_target (route : string) : result Node :=
  if String.eqb route "tool_node" then Ok node_tool_node
  else if String.eqb route "compress_research" then Ok node_compress_research
  else Raise (KeyError route).

(** The edges of [agent_builder]: the node entered after [node] has run and
    left the state [state]. *)
Definition next_node (node : Node) (state : ResearcherState) : result Node :=
  match node with
  | START => Ok node_llm_call
  | node_llm_call => should_continue state ≫= conditional_target
  | node_tool_node => Ok node_llm_call
  | node_compress_research => Ok node_assess_quality
  | node_assess_quality => Ok END
  | END => Ok END
  end.

(** The function registered for a node. *)
Definition run_node (env : Env) (node : Node) (state : ResearcherState)
    : result Update :=
  match node with
  | node_llm_call => llm_call env state
  | node_tool_node => tool_node env state
  | node_compress_research => compress_research env state
  | node_assess_quality => assess_quality env state
  | START | END => Ok no_update
  end.

(** One step of the compiled graph: run the node, merge what it returns,
    follow the outgoing edge. *)
Definition graph_step (env : Env) (node : Node) (state : ResearcherState)
    : result (Node * ResearcherState) :=
  u ← run_node env node state;
  let state' := apply_update state u in
  node' ← next_node node state';
  Ok (node', state').

(** ** Templates as text and placeholders

    The reading of a prompt body that [render] is specified against: a
    sequence of literal text and named placeholders.  [unparse] writes it
    as a format string: braces of the text are doubled, a placeholder is
    its name in braces. *)

Inductive Piece : Type :=
  | PText (text : string)
  | PVar (key : string).

Fixpoint escape (text : string) : string :=
  match text with
  | EmptyString => EmptyString
  | String c rest =>
      if is_char c "{" || is_char c "}" then String c (String c (escape rest))
      else String c (escape rest)
  end.

Fixpoint unparse (pieces : list Piece) : string :=
  match pieces with
  | [] => EmptyString
  | PText text :: rest => escape text +:+ unparse rest
  | PVar key :: rest => "{" +:+ key +:+ "}" +:+ unparse rest
  end.

(** The characters that end or structure a field name. *)
Definition is_special (c : ascii) : bool :=
  is_char c "{" || is_char c "}" || is_char c "[" || is_char c "."
  || is_char c "!" || is_char c ":".

Fixpoint plain (key : string) : bool :=
  match key with
  | EmptyString => true
  | String c rest => negb (is_special c) && plain rest
  end.

(** A placeholder name: without structuring characters, and with an
    ASCII character that is not a digit, so that it is not read as a
    positional index. *)
Definition is_key (key : string) : bool := plain key && has_ascii_nondigit key.

Definition well_formed (pieces : list Piece) : Prop :=
  ∀ key, PVar key ∈ pieces → is_key key = true.

(** Every placeholder replaced by its value; [None] when one has none. *)
Fixpoint substitute (kwargs : gmap string string) (pieces : list Piece)
    : option string :=
  match pieces with
  | [] => Some EmptyString
  | PText text :: rest => (fun r => text +:+ r) <$> substitute kwargs rest
  | PVar key :: rest =>
      value ← kwargs !! key;
      (fun r => value +:+ r) <$> substitute kwargs rest
  end.

(** The first placeholder, in reading order, without a value. *)
Fixpoint first_missing (kwargs : gmap string string) (pieces : list Piece)
    : option string :=
  match pieces with
  | [] => None
  | PText _ :: rest => first_missing kwargs rest
  | PVar key :: rest =>
      match kwargs !! key with
      | Some _ => first_missing kwargs rest
      | None => Some key
      end
  end.

(** What the scanner yields on [unparse pieces] when [lit] is the literal
    text read so far. *)
Fixpoint items_of (lit : string) (pieces : list Piece) : list Markup :=
  match pieces with
  | [] => [Literal lit]
  | PText text :: rest => items_of (lit +:+ text) rest
  | PVar key :: rest => Literal lit :: Field key None EmptyString false :: items_of EmptyString rest
  end.

(** ** The invariant of a loaded cache *)

(** A template stored under [(n, v)] carries that name and version, and
    its fingerprint is the one of its body. *)
Definition entry_ok (n v : string) (t : PromptTemplate) : Prop :=
  name t = n ∧ version t = v ∧ content_hash t = content_hash_of (template t).

Definition versions_ok (n : string) (loaded : gmap string PromptTemplate) : Prop :=
  ∀ v t, loaded !! v = Some t → entry_ok n v t.

Definition cache_ok (c : gmap string (gmap string PromptTemplate)) : Prop :=
  ∀ n loaded, c !! n = Some loaded → versions_ok n loaded.

(** The turns that go into the raw notes: assistant and tool-result. *)
Definition is_assistant_or_tool_result (m : Message) : bool :=
  match m with
  | AIMessage _ _ | ToolMessage _ _ _ => true
  | SystemMessage _ | HumanMessage _ => false
  end.

(** The raw-notes text as the specification words it: the notes in their
    order, with a single line feed (character 10) between one note and the
    next, none before the first and none after the last. *)
Fixpoint joined_by_line_feeds (notes : list string) : string :=
  match notes with
  | [] => EmptyString
  | [note] => note
  | note :: rest => note +:+ String (ascii_of_nat 10) (joined_by_line_feeds rest)
  end.

(** A request the dispatcher can serve: its tool is registered and the
    invocation returns. *)
Definition served (env : Env) (call : ToolCall) : Prop :=
  ∃ tool observation,
    tools_by_name env !! tc_name call = Some tool
    ∧ tool (tc_args call) = Ok observation.

(** ** Concrete stores and sessions used to exercise the statements *)

Definition no_metadata : Metadata := mkMetadata None None None None None.

Definition plain_post (body : string) : result Post := Ok (mkPost no_metadata body).

(** The manifest entries [name: {latest: "version"}] and [name: {}]. *)
Definition declares (version : string) : ManifestEntry :=
  Mapping (mkPromptConfig (Some (Str version))).
Definition no_latest : ManifestEntry := Mapping (mkPromptConfig None).

(** The store of the specification's end-to-end example, with a second
    prompt that declares no latest version and has a malformed asset. *)
Definition greeting_fs : FileSystem :=
  mkFileSystem
    (Some (mkManifest
             {[ "greeting" := declares "v2";
                "notes" := no_latest ]} ∅))
    {[ "greeting" := [ ("v1.md", plain_post "Hi {name}");
                       ("v2.md", plain_post "Hello {name}, welcome") ];
       "notes" := [ ("v9.md", plain_post "nine");
                    ("v10.md", plain_post "ten");
                    ("v11.md", Raise (ExternalError "malformed front matter"));
                    ("README.txt", plain_post "not a version") ] ]}.

Definition greeting_store : PromptManager := PromptManager_init greeting_fs "prompts".

(** A store whose manifest declares a latest version that failed to load. *)
Definition stale_fs : FileSystem :=
  mkFileSystem
    (Some (mkManifest {[ "greeting" := declares "v3" ]} ∅))
    {[ "greeting" := [ ("v1.md", plain_post "Hi {name}");
                       ("v2.md", plain_post "Hello {name}, welcome");
                       ("v3.md", Raise (ExternalError "malformed front matter")) ] ]}.

Definition stale_store : PromptManager := PromptManager_init stale_fs "prompts".

(** Two assets with the same body under different names. *)
Definition twin_fs : FileSystem :=
  mkFileSystem
    (Some (mkManifest
             {[ "a" := no_latest; "b" := no_latest ]} ∅))
    {[ "a" := [ ("v1.md", plain_post "same body") ];
       "b" := [ ("v7.md", plain_post ("  same body" +:+ newline)) ] ]}.

Definition twin_store : PromptManager := PromptManager_init twin_fs "prompts".

Definition a_template (body : string) : PromptTemplate :=
  mkPromptTemplate "p" "v1" body "unknown" "unknown" EmptyString [] ∅
    (content_hash_of body) "prompts/p/v1.md".

(** The prompt assets the nodes of [app.py] ask for. *)
Definition agent_fs : FileSystem :=
  mkFileSystem
    (Some (mkManifest
             {[ "research_agent_prompt_user" := declares "v1.0.0";
                "compress_research_prompt_system" := declares "v1.0.0";
                "compress_research_prompt_user" := declares "v1.0.0";
                "geologic_qa_prompt_user" := declares "v1.0.0" ]} ∅))
    {[ "research_agent_prompt_user" :=
         [ ("v1.0.0.md", plain_post "Research. Today is {date}.") ];
       "compress_research_prompt_system" :=
         [ ("v1.0.0.md", plain_post "Compress. Today is {date}.") ];
       "compress_research_prompt_user" :=
         [ ("v1.0.0.md", plain_post "Topic: {research_topic}") ];
       "geologic_qa_prompt_user" :=
         [ ("v1.0.0.md", plain_post "Check: {research_report}") ] ]}.

Definition agent_env : Env :=
  mkEnv agent_fs "Wed Nov 4, 2026"
    {[ "think_tool" := (fun _ => Ok "noted");
       "tavily_search" := (fun _ => Ok "results") ]}
    (fun _ => Ok (AIMessage "done" []))
    (fun _ => Ok (AIMessage "summary" []))
    (fun _ => Ok (AIMessage "looks fine" [])).

Definition search_call : ToolCall :=
  mkToolCall "tavily_search" [("query", "granite")] "call_1".
Definition think_call : ToolCall :=
  mkToolCall "think_tool" [("reflection", "enough")] "call_2".

Definition session (messages : list Message) (compressed : string) : ResearcherState :=
  mkResearcherState messages 0 "granite" compressed [] EmptyString.

(** ** PromptManager.py: the remaining operations *)

(** The dictionary [compare_versions] returns.  The two tag differences
    are built from Python sets, so their order carries no meaning. *)
Record VersionDiff : Type := mkVersionDiff {
  diff_version1 : string;
  diff_version2 : string;
  content_changed : bool;
  hash1 : string;
  hash2 : string;
  tags_added : gset string;
  tags_removed : gset string;
  model_hints_changed : bool
}.

(** [compare_versions] *)
Definition compare_versions (pm : PromptManager) (name version1 version2 : string)
    : result VersionDiff :=
  prompt1 ← get_prompt pm name (Some version1);
  prompt2 ← get_prompt pm name (Some version2);
  Ok (mkVersionDiff version1 version2
        (negb (String.eqb (template prompt1) (template prompt2)))
        (content_hash prompt1)
        (content_hash prompt2)
        (list_to_set (tags prompt2) ∖ list_to_set (tags prompt1))
        (list_to_set (tags prompt1) ∖ list_to_set (tags prompt2))
        (negb (bool_decide (model_hints prompt1 = model_hints prompt2)))).

(** [get_ab_test_variants]: the comprehension stops at the first version
    that does not resolve. *)
Fixpoint get_ab_test_variants (pm : PromptManager) (name : string)
    (variants : list string) : result (list PromptTemplate) :=
  match variants with
  | [] => Ok []
  | version :: variants' =>
      prompt ← get_prompt pm name (Some version);
      prompts ← get_ab_test_variants pm name variants';
      Ok (prompt :: prompts)
  end.

(** [load_prompt] *)
Definition load_prompt (fs : FileSystem) (name : string) (version : option string)
    (prompts_dir : string) : result PromptTemplate :=
  let manager := PromptManager_init fs prompts_dir in
  get_prompt manager name version.

(** [os.path.basename] on POSIX paths: what follows the last slash. *)
Fixpoint basename_go (tail : string) (path : string) : string :=
  match path with
  | EmptyString => tail
  | String c rest =>
      if is_char c "/" then basename_go EmptyString rest
      else basename_go (snoc tail c) rest
  end.

Definition basename (path : string) : string := basename_go EmptyString path.

(** The loop of [get_otel_attributes] over [self.model_hints.items()]. *)
Definition add_model_hint (attributes : gmap string string)
    (hint : string * string) : gmap string string :=
  <["model.hint." +:+ hint.1 := hint.2]> attributes.

(** [PromptTemplate.get_otel_attributes] *)
Definition get_otel_attributes (self : PromptTemplate) : gmap string string :=
  let attributes : gmap string string :=
    <["prompt.file" := basename (file_path self)]>
    (<["prompt.tags" := join "," (tags self)]>
    (<["prompt.hash" := content_hash self]>
    (<["prompt.date" := date self]>
    (<["prompt.author" := author self]>
    (<["prompt.version" := version self]>
    (<["prompt.name" := name self]> ∅)))))) in
  foldl add_model_hint attributes (map_to_list (model_hints self)).

(** [PromptTemplate.get_langfuse_metadata] *)
Definition get_langfuse_metadata (self : PromptTemplate) : gmap string string :=
  <["langfuse.tags" :=
      name self +:+ "," +:+ version self +:+ "," +:+ join "," (tags self)]>
  (<["langfuse.metadata.prompt_hash" := content_hash self]>
  (<["langfuse.metadata.prompt_tags" := join "," (tags self)]>
  (<["langfuse.metadata.prompt_date" := date self]>
  (<["langfuse.metadata.prompt_author" := author self]>
  (<["langfuse.metadata.prompt_version" := version self]>
  (<["langfuse.metadata.prompt_name" := name self]> ∅)))))).

(** ** Notions used to state what the code does beyond the claims *)

(** An entry of a directory listing that ends up in the cache: a [.md]
    file that opens and parses. *)
Definition loadable (entry : string * result Post) : bool :=
  endswith entry.1 ".md"
  && match entry.2 with Ok _ => true | Raise _ => false end.

Definition is_hex_digit (c : ascii) : bool :=
  let n := N_of_ascii c in
  ((48 <=? n) && (n <=? 57) || (97 <=? n) && (n <=? 102))%N.

Fixpoint all_chars (p : ascii → bool) (s : string) : bool :=
  match s with
  | EmptyString => true
  | String c s' => p c && all_chars p s'
  end.

Definition is_brace (c : ascii) : bool := is_char c "{" || is_char c "}".

Definition first_char (s : string) : option ascii :=
  match s with
  | EmptyString => None
  | String c _ => Some c
  end.

Fixpoint last_char (s : string) : option ascii :=
  match s with
  | EmptyString => None
  | String c EmptyString => Some c
  | String _ s' => last_char s'
  end.

(** A template with metadata, tags and model hints. *)
Definition tagged_template (tag_list : list string) : PromptTemplate :=
  mkPromptTemplate "greeting" "v2" "Hello {name}, welcome" "ada" "2026-01-01"
    "friendlier" tag_list {[ "temperature" := "0.2"; "model" := "gpt-4.1" ]}
    (content_hash_of "Hello {name}, welcome") "prompts/greeting/v2.md".

(** A store with tags: [v2] adds the tag ["warm"] and drops ["draft"]. *)
Definition tagged_fs : FileSystem :=
  mkFileSystem
    (Some (mkManifest {[ "greeting" := declares "v2" ]} ∅))
    {[ "greeting" :=
         [ ("v1.md", Ok (mkPost (mkMetadata (Some "ada") None None
                                   (Some ["base"; "draft"]) None) "Hi {name}"));
           ("v2.md", Ok (mkPost (mkMetadata (Some "bob") (Some "2026-02-02")
                                   (Some "friendlier") (Some ["base"; "warm"])
                                   (Some {[ "temperature" := "0.2" ]}))
                           "Hello {name}, welcome")) ] ]}.

Definition tagged_store : PromptManager := PromptManager_init tagged_fs "prompts".

(** An environment whose decision model asks for a search on every turn. *)
Definition eager_env : Env :=
  mkEnv agent_fs "Wed Nov 4, 2026"
    {[ "tavily_search" := (fun _ => Ok "results") ]}
    (fun _ => Ok (AIMessage "searching" [search_call]))
    (fun _ => Ok (AIMessage "summary" []))
    (fun _ => Ok (AIMessage "looks fine" [])).

Definition unknown_call : ToolCall :=
  mkToolCall "web_browse" [("url", "example.org")] "call_3".

(** A declared prompt whose directory holds nothing loadable. *)
Definition drafts_fs : FileSystem :=
  mkFileSystem (Some (mkManifest {[ "drafts" := no_latest ]} ∅))
    {[ "drafts" := [ ("notes.txt", plain_post "text");
                     ("v1.md", Raise (ExternalError "unreadable")) ] ]}.

(** A manifest that declares the empty string as the latest version. *)
Definition blank_fs : FileSystem :=
  mkFileSystem (Some (mkManifest {[ "greeting" := declares EmptyString ]} ∅))
    {[ "greeting" := [ ("v1.md", plain_post "Hi {name}");
                       ("v2.md", plain_post "Hello {name}, welcome") ] ]}.

Definition blank_store : PromptManager := PromptManager_init blank_fs "prompts".

(** A manifest that lists a prompt name with nothing under it,
    [prompts: {notes: null}], next to a directory with two versions. *)
Definition bare_fs : FileSystem :=
  mkFileSystem (Some (mkManifest {[ "notes" := NotAMapping "NoneType" ]} ∅))
    {[ "notes" := [ ("v9.md", plain_post "nine");
                    ("v10.md", plain_post "ten") ] ]}.

Definition bare_store : PromptManager := PromptManager_init bare_fs "prompts".

(** A manifest whose latest versions were written without quotes and
    loaded as a number and as a list. *)
Definition unquoted_fs : FileSystem :=
  mkFileSystem
    (Some (mkManifest
             {[ "greeting" := Mapping (mkPromptConfig (Some (Hashable true "1.0")));
                "notes" := Mapping (mkPromptConfig (Some (Unhashable true "list"))) ]}
             ∅))
    {[ "greeting" := [ ("1.0.md", plain_post "Hi {name}") ];
       "notes" := [ ("v9.md", plain_post "nine") ] ]}.

(** U+00A0 and U+2028, which [str.strip] removes, and U+200B, which it
    keeps, in UTF-8. *)
Definition nbsp : string := String "194" (String "160" EmptyString).
Definition line_separator : string :=
  String "226" (String "128" (String "168" EmptyString)).
Definition zero_width_space : string :=
  String "226" (String "128" (String "139" EmptyString)).

(** An asset whose body is surrounded by white space outside ASCII. *)
Definition padded_fs : FileSystem :=
  mkFileSystem (Some (mkManifest {[ "greeting" := declares "v2" ]} ∅))
    {[ "greeting" :=
         [ ("v2.md",
            plain_post (nbsp +:+ " Hello {name}" +:+ line_separator +:+ newline)) ] ]}.

(** Does [old] occur in [s]? *)
Fixpoint occurs (old s : string) : bool :=
  match s with
  | EmptyString => String.prefix old EmptyString
  | String _ s' => String.prefix old s || occurs old s'
  end.

(** * Properties *)

(** ** SHA-256 test vectors *)

Example sha256_abc :
  SHA256.hexdigest "abc"
  = "ba7816bf8f01cfea414140de5dae2223b00361a396177a9cb410ff61f20015ad".
Proof. vm_compute. reflexivity. Qed.

Example sha256_empty :
  SHA256.hexdigest EmptyString
  = "e3b0c44298fc1c149afbf4c8996fb92427ae41e4649b934ca495991b7852b855".
Proof. vm_compute. reflexivity. Qed.

Example sha256_two_blocks :
  SHA256.hexdigest "abcdbcdecdefdefgefghfghighijhijkijkljklmklmnlmnomnopnopq"
  = "248d6a61d20638b8e5c026930c3e6039a33ce45964ff2167f6ecedd419db06c1".
Proof. vm_compute. reflexivity. Qed.

(** ** The model on the specification's examples *)

Example greeting_resolves_to_v2 :
  (version <$> get_prompt greeting_store "greeting" None) = Ok "v2"
  ∧ (get_prompt greeting_store "greeting" None ≫= fun t => render t {[ "name" := "Ada" ]})
    = Ok "Hello Ada, welcome".
Proof. by vm_compute. Qed.

Example malformed_asset_is_skipped :
  list_versions greeting_store "notes" = Ok ["v10"; "v9"]
  ∧ list_prompts greeting_store = {[ "greeting"; "notes" ]}.
Proof. by vm_compute. Qed.

Example reload_sees_new_assets :
  is_Ok (get_prompt (reload greeting_fs stale_store) "greeting" None)
  ∧ get_prompt (reload stale_fs greeting_store) "greeting" None
    = Raise (version_not_found "v3" "greeting").
Proof. split; [eexists|]; by vm_compute. Qed.

(** Outcomes of [str.format] observed on CPython 3.11. *)
Example format_outcomes :
  format "x}}y{{z" ∅ = Ok "x}y{z"
  ∧ format "{a} {" ∅ = Raise (KeyError "a")
  ∧ format "{a} {" {[ "a" := "V" ]}
    = Raise (ValueError "Single '{' encountered in format string")
  ∧ format "{}" {[ "a" := "V" ]} = Raise (IndexError 0)
  ∧ format "{007}" {[ "a" := "V" ]} = Raise (IndexError 7)
  ∧ format "{a!s}" {[ "a" := "V" ]} = Ok "V"
  ∧ format "{a!x}" {[ "a" := "V" ]}
    = Raise (ValueError "Unknown conversion specifier x")
  ∧ format "{a[}" {[ "a" := "V" ]}
    = Raise (ValueError "expected '}' before end of string")
  ∧ format "{a]}" {[ "a" := "V" ]} = Raise (KeyError "a]")
  ∧ format "{a{b}}" {[ "a" := "V" ]}
    = Raise (ValueError "unexpected '{' in field name").
Proof. by vm_compute. Qed.

Example format_nested_outcomes :
  format "{a:{b}}" ∅ = Raise (KeyError "a")
  ∧ format "{a:{b}}" {[ "a" := "V" ]} = Raise (KeyError "b")
  ∧ format "{a:{b}}" {[ "a" := "V"; "b" := EmptyString ]} = Ok "V"
  ∧ format "{a:{b:{c}}}" {[ "a" := "V" ]} = Raise (KeyError "b")
  ∧ format "{a:{b:{c}}}" {[ "a" := "V"; "b" := EmptyString ]}
    = Raise (ValueError "Max string recursion exceeded")
  ∧ format "{a:{0}}" {[ "a" := "V" ]} = Raise (IndexError 0)
  ∧ format "{a:{b}" {[ "a" := "V" ]}
    = Raise (ValueError "unmatched '{' in format spec").
Proof. by vm_compute. Qed.

Example strip_and_replace :
  strip ("  a b " +:+ newline) = "a b"
  ∧ strip (nbsp +:+ " Hello {name}" +:+ line_separator +:+ newline) = "Hello {name}"
  ∧ strip (zero_width_space +:+ " x") = zero_width_space +:+ " x"
  ∧ replace "v1.0.0.md" ".md" EmptyString = "v1.0.0"
  ∧ replace "a.mdb.md" ".md" EmptyString = "ab"
  ∧ endswith "v1.md" ".md" = true
  ∧ endswith "md" ".md" = false.
Proof. by vm_compute. Qed.

Example path_join_outcomes :
  path_join "prompts" "greeting" = "prompts/greeting"
  ∧ path_join "prompts/" "greeting" = "prompts/greeting"
  ∧ path_join EmptyString "greeting" = "greeting"
  ∧ path_join "prompts" "/srv/greeting" = "/srv/greeting"
  ∧ path_join (path_join "prompts/" "greeting") "v2.md" = "prompts/greeting/v2.md".
Proof. by vm_compute. Qed.

(** A manifest whose entries are not mappings of strings. *)
Example unquoted_latest_versions :
  get_prompt (PromptManager_init unquoted_fs "prompts") "greeting" None
  = Raise (ValueError "Version '1.0' not found for prompt 'greeting'")
  ∧ (version <$> get_prompt (PromptManager_init unquoted_fs "prompts") "greeting"
                   (Some "1.0")) = Ok "1.0"
  ∧ get_prompt (PromptManager_init unquoted_fs "prompts") "notes" (Some "latest")
    = Raise (TypeError "unhashable type: 'list'").
Proof. by vm_compute. Qed.

(** ** Strings *)

Lemma append_cons (c : ascii) (s t : string) :
  String c s +:+ t = String c (s +:+ t).
Proof. reflexivity. Qed.

Lemma append_nil_l (s : string) : EmptyString +:+ s = s.
Proof. reflexivity. Qed.

Lemma append_nil_r (s : string) : s +:+ EmptyString = s.
Proof. induction s as [|c s IH]; [done|]. by rewrite append_cons, IH. Qed.

Lemma append_assoc (s t u : string) : (s +:+ t) +:+ u = s +:+ (t +:+ u).
Proof. induction s as [|c s IH]; [done|]. by rewrite !append_cons, IH. Qed.

Lemma snoc_append (s : string) (c : ascii) (t : string) :
  snoc s c +:+ t = s +:+ String c t.
Proof. unfold snoc. by rewrite append_assoc. Qed.

Lemma last_char_is_Some (c : ascii) (s : string) : is_Some (last_char (String c s)).
Proof.
  revert c. induction s as [|a s IH]; intros c; [by eexists|].
  cbn [last_char]. apply IH.
Qed.

Lemma last_char_rev_app (s acc : string) :
  last_char (String.rev_app s acc)
  = match last_char acc with
    | Some c => Some c
    | None => first_char s
    end.
Proof.
  revert acc. induction s as [|a s IH]; intros acc.
  - cbn. by destruct (last_char acc).
  - cbn [String.rev_app]. rewrite IH. destruct acc as [|b acc]; [done|].
    destruct (last_char_is_Some b acc) as [c Hc].
    change (last_char (String a (String b acc))) with (last_char (String b acc)).
    by rewrite Hc.
Qed.

Lemma first_char_rev_app (s acc : string) :
  first_char (String.rev_app s acc)
  = match last_char s with
    | Some c => Some c
    | None => first_char acc
    end.
Proof.
  revert acc. induction s as [|a s IH]; intros acc; [done|].
  cbn [String.rev_app]. rewrite IH. destruct s as [|b s]; [done|].
  destruct (last_char_is_Some b s) as [c Hc].
  change (last_char (String a (String b s))) with (last_char (String b s)).
  by rewrite Hc.
Qed.

Lemma prefix_first_char (c : ascii) (s : string) :
  String.prefix (String c EmptyString) s = true → first_char s = Some c.
Proof.
  destruct s as [|a s]; [done|]. cbn [String.prefix first_char].
  by destruct (ascii_dec c a) as [->|].
Qed.

Lemma endswith_last_char (s : string) (c : ascii) :
  endswith s (String c EmptyString) = true → last_char s = Some c.
Proof.
  unfold endswith, String.rev. cbn [String.rev_app].
  intros Hfirst%prefix_first_char. rewrite first_char_rev_app in Hfirst.
  by destruct (last_char s).
Qed.

(** ** The format scanner on text and placeholders *)

Section scanner.
Implicit Types (lit key text rest : string) (c : ascii).

Lemma markup_go_cons st c s :
  markup_go st (String c s)
  = match scan_step st c with
    | Next emitted st' =>
        let r := markup_go st' s in (emitted ++ r.1, r.2)
    | Fail e => ([], Some e)
    end.
Proof. done. Qed.

Lemma markup_go_escape text lit rest :
  markup_go (InText lit) (escape text +:+ rest)
  = markup_go (InText (lit +:+ text)) rest.
Proof.
  revert lit. induction text as [|c text IH]; intros lit.
  - by rewrite append_nil_r.
  - cbn [escape]. rewrite <- snoc_append, <- IH.
    destruct (is_char c "{") eqn:Hopen; cbn [orb].
    + rewrite !append_cons, markup_go_cons. cbn [scan_step]. rewrite Hopen.
      cbn [app fst snd]. rewrite markup_go_cons. cbn [scan_step].
      rewrite Hopen. cbn [app fst snd]. by destruct (markup_go _ _).
    + destruct (is_char c "}") eqn:Hclose.
      * rewrite !append_cons, markup_go_cons. cbn [scan_step].
        rewrite Hopen, Hclose. cbn [app fst snd]. rewrite markup_go_cons.
        cbn [scan_step]. rewrite Hclose. cbn [app fst snd].
        by destruct (markup_go _ _).
      * rewrite !append_cons, markup_go_cons. cbn [scan_step].
        rewrite Hopen, Hclose. cbn [app fst snd]. by destruct (markup_go _ _).
Qed.

Lemma name_step_plain fname c :
  is_special c = false →
  name_step fname false c = Next [] (InName (snoc fname c) false).
Proof.
  unfold is_special, name_step. intros H.
  repeat (apply orb_false_elim in H as [H ?]).
  by repeat match goal with Hc : is_char c _ = false |- _ => rewrite Hc; clear Hc end.
Qed.

Lemma markup_go_name key fname rest :
  plain key = true →
  markup_go (InName fname false) (key +:+ String "}" rest)
  = (Field (fname +:+ key) None EmptyString false :: (markup_go (InText EmptyString) rest).1,
     (markup_go (InText EmptyString) rest).2).
Proof.
  revert fname. induction key as [|c key IH]; intros fname Hplain.
  - by rewrite append_nil_l, append_nil_r.
  - cbn [plain] in Hplain. apply andb_prop in Hplain as [Hc Hkey].
    apply negb_true_iff in Hc.
    rewrite append_cons, markup_go_cons. cbn [scan_step].
    rewrite name_step_plain by done. cbn [app fst snd].
    rewrite IH by done. by rewrite snoc_append.
Qed.

Lemma is_key_cons key :
  is_key key = true →
  ∃ c key', key = String c key' ∧ is_special c = false ∧ plain key' = true.
Proof.
  unfold is_key. destruct key as [|c key']; [done|]. cbn [plain].
  intros [[Hc Hkey]%andb_prop _]%andb_prop. apply negb_true_iff in Hc. eauto.
Qed.

Lemma markup_go_var key lit rest :
  is_key key = true →
  markup_go (InText lit) ("{" +:+ key +:+ "}" +:+ rest)
  = (Literal lit :: Field key None EmptyString false :: (markup_go (InText EmptyString) rest).1,
     (markup_go (InText EmptyString) rest).2).
Proof.
  intros (c & key' & -> & Hc & Hkey)%is_key_cons.
  assert (is_char c "{" = false) as Hopen.
  { unfold is_special in Hc. by repeat (apply orb_false_elim in Hc as [Hc ?]). }
  rewrite !append_cons, append_nil_l, markup_go_cons. cbn [scan_step].
  change (is_char "{" "{") with true. cbn [app fst snd].
  rewrite markup_go_cons. cbn [scan_step].
  rewrite Hopen, name_step_plain by done. cbn [app fst snd].
  rewrite markup_go_name by done. by rewrite snoc_append, append_nil_l.
Qed.
End scanner.

Lemma has_ascii_nondigit_all_digits (s : string) :
  has_ascii_nondigit s = true → all_digits s = false.
Proof.
  induction s as [|c s IH]; [done|]. cbn [has_ascii_nondigit all_digits].
  destruct (is_digit c); [|done].
  rewrite andb_false_r. cbn [orb andb]. apply IH.
Qed.

Section formatting.
Context (expand : string → result string) (kwargs : gmap string string).
Implicit Types (pieces : list Piece) (lit key out : string).

Lemma markup_go_unparse pieces lit :
  well_formed pieces →
  markup_go (InText lit) (unparse pieces) = (items_of lit pieces, None).
Proof.
  revert lit. induction pieces as [|[text|key] pieces IH]; intros lit Hwf.
  - done.
  - cbn [unparse items_of]. rewrite markup_go_escape. apply IH.
    intros key Hkey. apply Hwf. by right.
  - cbn [unparse items_of]. rewrite markup_go_var by (apply Hwf; left).
    rewrite IH; [done|]. intros key' Hkey. apply Hwf. by right.
Qed.

Lemma split_first_plain key : plain key = true → split_first key = (key, EmptyString).
Proof.
  induction key as [|c key IH]; [done|]. cbn [plain split_first].
  intros [Hc Hkey]%andb_prop. apply negb_true_iff in Hc.
  unfold is_special in Hc.
  repeat (apply orb_false_elim in Hc as [Hc ?]).
  replace (is_char c ".") with false. replace (is_char c "[") with false.
  cbn [orb]. by rewrite IH.
Qed.

Lemma output_markup_key key :
  is_key key = true →
  output_markup expand kwargs key None EmptyString false
  = match kwargs !! key with
    | Some value => Ok value
    | None => Raise (KeyError key)
    end.
Proof.
  unfold is_key. intros [Hplain Hname]%andb_prop.
  unfold output_markup, get_field_object.
  rewrite split_first_plain by done. cbn [fst snd].
  rewrite (has_ascii_nondigit_all_digits key Hname), Hname.
  by destruct (kwargs !! key).
Qed.

Lemma do_markup_substitute pieces lit out text :
  well_formed pieces →
  substitute kwargs pieces = Some text →
  do_markup expand kwargs (items_of lit pieces) None out
  = Ok (out +:+ lit +:+ text).
Proof.
  revert lit out text.
  induction pieces as [|[t|key] pieces IH]; intros lit out text Hwf Hsub.
  - cbn in Hsub. injection Hsub as <-. cbn. by rewrite append_nil_r.
  - cbn [substitute] in Hsub.
    destruct (substitute kwargs pieces) as [r|] eqn:Hr; [|done].
    injection Hsub as <-. cbn [items_of].
    rewrite (IH _ _ r); [by rewrite append_assoc| |done].
    intros key Hkey. apply Hwf. by right.
  - cbn [substitute] in Hsub.
    destruct (kwargs !! key) as [value|] eqn:Hvalue; [|done].
    cbn [mbind option_bind] in Hsub.
    destruct (substitute kwargs pieces) as [r|] eqn:Hr; [|done].
    injection Hsub as <-. cbn [items_of do_markup].
    rewrite output_markup_key by (apply Hwf; left). rewrite Hvalue.
    cbn [mbind result_bind].
    rewrite (IH _ _ r); [|intros key' Hkey; apply Hwf; by right|done].
    by rewrite append_nil_l, !append_assoc.
Qed.

Lemma do_markup_first_missing pieces lit out key :
  well_formed pieces →
  first_missing kwargs pieces = Some key →
  do_markup expand kwargs (items_of lit pieces) None out = Raise (KeyError key).
Proof.
  revert lit out.
  induction pieces as [|[t|key'] pieces IH]; intros lit out Hwf Hmiss.
  - done.
  - cbn [items_of]. apply IH; [|done]. intros k Hk. apply Hwf. by right.
  - cbn [first_missing] in Hmiss. cbn [items_of do_markup].
    rewrite output_markup_key by (apply Hwf; left).
    destruct (kwargs !! key') as [value|] eqn:Hvalue.
    + cbn [mbind result_bind]. apply IH; [|done].
      intros k Hk. apply Hwf. by right.
    + by injection Hmiss as <-.
Qed.

Lemma first_missing_Some pieces key :
  first_missing kwargs pieces = Some key →
  ∃ before after,
    pieces = before ++ PVar key :: after
    ∧ (∀ k, PVar k ∈ before → is_Some (kwargs !! k))
    ∧ kwargs !! key = None.
Proof.
  induction pieces as [|[t|key'] pieces IH]; intros Hmiss; [done| |].
  - destruct (IH Hmiss) as (before & after & -> & Hbefore & Hnone).
    exists (PText t :: before), after. split; [done|]. split; [|done].
    intros k [?|?]%elem_of_cons; [done|by apply Hbefore].
  - cbn [first_missing] in Hmiss.
    destruct (kwargs !! key') eqn:Hvalue.
    + destruct (IH Hmiss) as (before & after & -> & Hbefore & Hnone).
      exists (PVar key' :: before), after. split; [done|]. split; [|done].
      intros k [[= ->]|?]%elem_of_cons; [by rewrite Hvalue|by apply Hbefore].
    + injection Hmiss as <-. exists [], pieces. split; [done|].
      split; [|done]. by intros k ?%elem_of_nil.
Qed.

Lemma first_missing_None pieces :
  first_missing kwargs pieces = None ↔
  ∀ key, PVar key ∈ pieces → is_Some (kwargs !! key).
Proof.
  induction pieces as [|[t|key'] pieces IH]; cbn [first_missing].
  - split; [|done]. intros _ key Hkey. by apply elem_of_nil in Hkey.
  - rewrite IH. split; intros H key Hkey.
    + apply elem_of_cons in Hkey as [?|?]; [done|by apply H].
    + apply H. by right.
  - destruct (kwargs !! key') eqn:Hvalue.
    + rewrite IH. split; intros H key Hkey.
      * apply elem_of_cons in Hkey as [[= ->]|?]; [by rewrite Hvalue|by apply H].
      * apply H. by right.
    + split; [done|]. intros H. destruct (H key') as [? Hsome]; [by left|].
      congruence.
Qed.

Lemma substitute_is_Some pieces :
  first_missing kwargs pieces = None → is_Some (substitute kwargs pieces).
Proof.
  induction pieces as [|[t|key] pieces IH]; cbn [first_missing substitute].
  - by eexists.
  - intros [r ->]%IH. by eexists.
  - destruct (kwargs !! key); [|done]. intros [r ->]%IH. by eexists.
Qed.
End formatting.

(** ** Loading establishes the cache invariant *)

Section loading.
Context (fs : FileSystem) (dir : string).

Lemma _load_prompt_file_ok n v path opened t :
  _load_prompt_file n v path opened = Ok t → entry_ok n v t.
Proof.
  unfold _load_prompt_file. destruct opened as [post|e]; [|done].
  cbn. intros [= <-]. by repeat split.
Qed.

Lemma load_version_file_ok n loaded entry :
  versions_ok n loaded → versions_ok n (load_version_file dir n loaded entry).
Proof.
  intros Hok. unfold load_version_file.
  destruct (endswith entry.1 ".md"); [|done].
  destruct (_load_prompt_file _ _ _ _) as [t|e] eqn:Hload; [|done].
  intros v t'. rewrite lookup_insert. case_decide as Hv.
  - intros [= <-]. subst v. by eapply _load_prompt_file_ok.
  - apply Hok.
Qed.

Lemma load_listing_ok n listing loaded :
  versions_ok n loaded →
  versions_ok n (foldl (load_version_file dir n) loaded listing).
Proof.
  revert loaded. induction listing as [|entry listing IH]; intros loaded Hok.
  - done.
  - cbn [foldl]. apply IH. by apply load_version_file_ok.
Qed.

Lemma load_prompt_dir_ok c item :
  cache_ok c → cache_ok (load_prompt_dir fs dir c item).
Proof.
  intros Hok. unfold load_prompt_dir.
  destruct (fs_listdir fs !! item.1) as [listing|]; [|done].
  intros n loaded. rewrite lookup_insert. case_decide as Hn.
  - intros [= <-]. subst n. apply load_listing_ok. intros v t.
    by rewrite lookup_empty.
  - apply Hok.
Qed.

Lemma _load_all_prompts_ok m c :
  cache_ok c → cache_ok (_load_all_prompts fs dir m c).
Proof.
  unfold _load_all_prompts. generalize (map_to_list (prompts m)).
  intros items. revert c.
  induction items as [|item items IH]; intros c Hok; [done|].
  cbn [foldl]. apply IH. by apply load_prompt_dir_ok.
Qed.

Lemma PromptManager_init_ok : cache_ok (cache (PromptManager_init fs dir)).
Proof.
  apply _load_all_prompts_ok. intros n loaded. by rewrite lookup_empty.
Qed.
End loading.

(** ** Lookups *)

Lemma get_prompt_Ok pm n v t :
  get_prompt pm n v = Ok t →
  ∃ loaded v', cache pm !! n = Some loaded
               ∧ resolve_version pm n loaded v = Ok v'
               ∧ loaded !! v' = Some t.
Proof.
  unfold get_prompt. destruct (cache pm !! n) as [loaded|]; [|done].
  destruct (resolve_version pm n loaded v) as [v'|e] eqn:Hv; [|done].
  cbn. destruct (loaded !! v') as [t'|] eqn:Ht; [|done].
  intros [= <-]. eauto.
Qed.

Lemma get_prompt_unknown pm n v :
  cache pm !! n = None → get_prompt pm n v = Raise (prompt_not_found n).
Proof. unfold get_prompt. by intros ->. Qed.

Lemma latest_version_declared pm n loaded v :
  manifest_latest pm n = Ok (Some (Str v)) → v ≠ EmptyString →
  latest_version pm n loaded = Ok v.
Proof.
  intros Hlatest Hv. unfold latest_version. rewrite Hlatest.
  cbn [mbind result_bind truthy]. by apply String.eqb_neq in Hv as ->.
Qed.

Lemma latest_version_fallback pm n loaded declared :
  manifest_latest pm n = Ok declared → truthy declared = false →
  latest_version pm n loaded = highest_version n loaded.
Proof.
  intros Hlatest Hfalse. unfold latest_version. rewrite Hlatest.
  cbn [mbind result_bind]. by rewrite Hfalse.
Qed.

Lemma last_is_greatest (l : list string) (x : string) :
  StronglySorted String.le l → last l = Some x →
  ∀ y, y ∈ l → String.le y x.
Proof.
  induction 1 as [|z l Hsorted IH Hall]; [done|].
  destruct l as [|z' l].
  - intros [= <-] y ->%list_elem_of_singleton. done.
  - intros Hlast y [->|Hy]%elem_of_cons.
    + rewrite Forall_forall in Hall. apply Hall.
      change (last (z :: z' :: l)) with (last (z' :: l)) in Hlast.
      apply list_elem_of_In. by apply last_Some_elem_of, list_elem_of_In in Hlast.
    + by apply IH.
Qed.

Lemma loaded_versions_elem (loaded : gmap string PromptTemplate) (v : string) :
  v ∈ (map_to_list loaded).*1 ↔ is_Some (loaded !! v).
Proof.
  rewrite list_elem_of_fmap. split.
  - intros ([v' t] & -> & Hin). apply elem_of_map_to_list in Hin. by eexists.
  - intros [t Ht]. exists (v, t). split; [done|]. by apply elem_of_map_to_list.
Qed.

Lemma sorted_elem (l : list string) (v : string) : v ∈ sorted l ↔ v ∈ l.
Proof. unfold sorted. by rewrite merge_sort_Permutation. Qed.

Lemma highest_version_greatest n (loaded : gmap string PromptTemplate) :
  (map_to_list loaded).*1 ≠ [] →
  ∃ v, highest_version n loaded = Ok v
       ∧ v ∈ (map_to_list loaded).*1
       ∧ ∀ v', v' ∈ (map_to_list loaded).*1 → String.le v' v.
Proof.
  intros Hne. unfold highest_version.
  destruct (last (sorted (map_to_list loaded).*1)) as [v|] eqn:Hlast.
  - exists v. split; [done|]. split.
    + apply sorted_elem. by apply last_Some_elem_of.
    + intros v' Hv'. eapply last_is_greatest; [|done|by apply sorted_elem].
      apply StronglySorted_merge_sort; apply _.
  - apply last_None in Hlast. destruct Hne.
    apply Permutation_nil_r. rewrite <- Hlast. unfold sorted.
    by rewrite merge_sort_Permutation.
Qed.

(** ** The content fingerprint *)

Lemma content_hash_of_length (body : string) :
  String.length (content_hash_of body) = 12.
Proof.
  unfold content_hash_of, SHA256.hexdigest.
  generalize (SHA256.digest (SHA256.bytes_of_string body)). intros s.
  reflexivity.
Qed.

(** C3 (as stated, refuted): two different bodies with the same
    fingerprint.  ["093fd17ac563"] and ["4312b7a9a9ef"] have SHA-256
    digests that agree on their first twelve hexadecimal digits, so
    [_load_prompt_file] gives their templates the fingerprint
    ["7992bfc967eb"] both. *)
Lemma content_hash_collision :
  "093fd17ac563" ≠ "4312b7a9a9ef"
  ∧ content_hash_of "093fd17ac563" = "7992bfc967eb"
  ∧ content_hash_of "4312b7a9a9ef" = "7992bfc967eb"
  ∧ (content_hash <$>
       _load_prompt_file "p" "v1" "prompts/p/v1.md" (plain_post "093fd17ac563"))
    = (content_hash <$>
       _load_prompt_file "p" "v2" "prompts/p/v2.md" (plain_post "4312b7a9a9ef")).
Proof. split; [done|]. by vm_compute. Qed.

(** C3 (amended): the fingerprint set at load is a function of the body
    text alone.  Any two templates resolved from a loaded store that have
    equal bodies carry equal fingerprints, whatever their names, versions
    and metadata; the fingerprint is the twelve-digit prefix of the SHA-256
    hex digest of the body.  Different bodies may share a fingerprint. *)
Theorem content_hash_function_of_body
    (fs : FileSystem) (dir n1 n2 : string) (v1 v2 : option string)
    (t1 t2 : PromptTemplate) :
  get_prompt (PromptManager_init fs dir) n1 v1 = Ok t1 →
  get_prompt (PromptManager_init fs dir) n2 v2 = Ok t2 →
  template t1 = template t2 →
  content_hash t1 = content_hash t2
  ∧ content_hash t1 = slice_to 12 (SHA256.hexdigest (template t1))
  ∧ String.length (content_hash t1) = 12.
Proof.
  intros (l1 & w1 & Hl1 & _ & Ht1)%get_prompt_Ok
         (l2 & w2 & Hl2 & _ & Ht2)%get_prompt_Ok Hbody.
  destruct (PromptManager_init_ok fs dir n1 l1 Hl1 w1 t1 Ht1) as (_ & _ & H1).
  destruct (PromptManager_init_ok fs dir n2 l2 Hl2 w2 t2 Ht2) as (_ & _ & H2).
  split; [by rewrite H1, H2, Hbody|]. split; [done|].
  rewrite H1. apply content_hash_of_length.
Qed.

Lemma content_hash_function_of_body_witness :
  ∃ t1 t2,
    name t1 ≠ name t2
    ∧ content_hash t1 = content_hash t2
    ∧ content_hash t1 = slice_to 12 (SHA256.hexdigest (template t1))
    ∧ String.length (content_hash t1) = 12.
Proof.
  exists (mkPromptTemplate "a" "v1" "same body" "unknown" "unknown" EmptyString [] ∅
            "8f6372a8b150" "prompts/a/v1.md"),
         (mkPromptTemplate "b" "v7" "same body" "unknown" "unknown" EmptyString [] ∅
            "8f6372a8b150" "prompts/b/v7.md").
  split; [done|].
  apply (content_hash_function_of_body twin_fs "prompts" "a" "b"
           (Some "v1") None); by vm_compute.
Defined.

(** ** Version resolution *)

(** C4 (as stated, refuted): the manifest of [blank_fs] declares the empty
    string as the latest version of ["greeting"].  [get_prompt] takes an
    empty declaration for none: with [None] and with ["latest"] it falls
    back to the greatest loaded version, while the declared string itself
    is looked up as a version, and is not found. *)
Lemma empty_latest_breaks_equivalence :
  manifest_latest blank_store "greeting" = Ok (Some (Str EmptyString))
  ∧ (version <$> get_prompt blank_store "greeting" None) = Ok "v2"
  ∧ (version <$> get_prompt blank_store "greeting" (Some "latest")) = Ok "v2"
  ∧ get_prompt blank_store "greeting" (Some EmptyString)
    = Raise (ValueError "Version '' not found for prompt 'greeting'")
  ∧ ¬ (get_prompt blank_store "greeting" None
       = get_prompt blank_store "greeting" (Some "latest")
       ∧ get_prompt blank_store "greeting" (Some "latest")
         = get_prompt blank_store "greeting" (Some EmptyString)).
Proof.
  split_and!; try by vm_compute.
  intros [_ Hsame]. vm_compute in Hsame. discriminate Hsame.
Qed.

(** C4 (amended): resolving with [None] and with ["latest"] always gives
    the same outcome; and when the manifest declares a latest version that
    is a non-empty string, resolving with that string gives this outcome
    too: the same template, or the same error. *)
Theorem get_prompt_latest_equivalence
    (pm : PromptManager) (n v : string) :
  get_prompt pm n None = get_prompt pm n (Some "latest")
  ∧ (manifest_latest pm n = Ok (Some (Str v)) → v ≠ EmptyString →
     get_prompt pm n (Some "latest") = get_prompt pm n (Some v)).
Proof.
  split; [done|]. intros Hlatest Hv. unfold get_prompt.
  destruct (cache pm !! n) as [loaded|]; [|done].
  cbn [resolve_version]. change (String.eqb "latest" "latest") with true.
  cbn match.
  destruct (String.eqb_spec v "latest") as [->|_]; [done|].
  by rewrite (latest_version_declared pm n loaded v).
Qed.

Lemma get_prompt_latest_equivalence_witness :
  get_prompt greeting_store "greeting" None
  = get_prompt greeting_store "greeting" (Some "latest")
  ∧ get_prompt greeting_store "greeting" (Some "latest")
    = get_prompt greeting_store "greeting" (Some "v2").
Proof.
  destruct (get_prompt_latest_equivalence greeting_store "greeting" "v2")
    as [Hsentinel Hdeclared].
  split; [exact Hsentinel|]. apply Hdeclared; [by vm_compute|done].
Defined.

(** C5 (the code fails it): the manifest of [bare_fs] lists ["notes"]
    with nothing under it, so it declares no latest version, and two
    versions are loaded for the name.  Resolving without a version does not
    return the greater one: the entry is [None], which has no [get], and
    [get_prompt] raises [AttributeError].  An explicit version resolves. *)
Theorem get_prompt_bare_manifest_entry :
  prompts (manifest bare_store) !! "notes" = Some (NotAMapping "NoneType")
  ∧ list_prompts bare_store = {[ "notes" ]}
  ∧ list_versions bare_store "notes" = Ok ["v10"; "v9"]
  ∧ get_prompt bare_store "notes" None
    = Raise (AttributeError "'NoneType' object has no attribute 'get'")
  ∧ get_prompt bare_store "notes" (Some "latest")
    = Raise (AttributeError "'NoneType' object has no attribute 'get'")
  ∧ (version <$> get_prompt bare_store "notes" (Some "v9")) = Ok "v9".
Proof. by vm_compute. Qed.

(** C10 (as stated, refuted): the manifest of [blank_fs] declares the
    empty string as the latest version of ["greeting"] and no template
    with that version is loaded; resolving without a version does not
    raise, it falls back to the greatest loaded version. *)
Lemma empty_latest_falls_back :
  manifest_latest blank_store "greeting" = Ok (Some (Str EmptyString))
  ∧ list_versions blank_store "greeting" = Ok ["v1"; "v2"]
  ∧ (∃ loaded, cache blank_store !! "greeting" = Some loaded
               ∧ loaded !! EmptyString = None)
  ∧ (version <$> get_prompt blank_store "greeting" None) = Ok "v2"
  ∧ get_prompt blank_store "greeting" None
    ≠ Raise (version_not_found EmptyString "greeting").
Proof.
  split; [by vm_compute|]. split; [by vm_compute|]. split.
  { eexists. split; by vm_compute. }
  split; [by vm_compute|].
  intros Hraise. vm_compute in Hraise. discriminate Hraise.
Qed.

(** C10 (amended): for a known name whose declared latest version is a
    non-empty string with no loaded template, resolving with [None] raises
    the version-not-found error; it does not fall back to the greatest
    loaded version, whatever other versions are loaded. *)
Theorem get_prompt_declared_latest_missing
    (pm : PromptManager) (n v : string) (loaded : gmap string PromptTemplate) :
  cache pm !! n = Some loaded →
  manifest_latest pm n = Ok (Some (Str v)) → v ≠ EmptyString →
  loaded !! v = None →
  get_prompt pm n None = Raise (version_not_found v n)
  ∧ get_prompt pm n (Some "latest") = Raise (version_not_found v n).
Proof.
  intros Hloaded Hlatest Hv Hmissing. unfold get_prompt. rewrite Hloaded.
  cbn [resolve_version]. change (String.eqb "latest" "latest") with true.
  cbn match. rewrite (latest_version_declared pm n loaded v) by done.
  cbn [mbind result_bind]. by rewrite Hmissing.
Qed.

Lemma get_prompt_declared_latest_missing_witness :
  is_Ok (get_prompt stale_store "greeting" (Some "v2"))
  ∧ get_prompt stale_store "greeting" None
    = Raise (ValueError "Version 'v3' not found for prompt 'greeting'").
Proof.
  split; [eexists; by vm_compute|].
  refine (proj1 (get_prompt_declared_latest_missing stale_store "greeting" "v3"
                   (default ∅ (cache stale_store !! "greeting")) _ _ _ _));
    by vm_compute.
Defined.

(** C8: resolving an unknown name raises the not-found error, whatever the
    version asked for, and so do [list_versions] and [get_changelog];
    resolving a known name with an explicit version string (any string but
    the ["latest"] sentinel) for which no template was loaded raises the
    not-found error too. *)
Theorem unknown_lookups_raise (pm : PromptManager) (n : string) :
  (cache pm !! n = None →
     (∀ v, get_prompt pm n v = Raise (prompt_not_found n))
     ∧ list_versions pm n = Raise (prompt_not_found n)
     ∧ get_changelog pm n = Raise (prompt_not_found n))
  ∧ (∀ loaded v,
       cache pm !! n = Some loaded → v ≠ "latest" → loaded !! v = None →
       get_prompt pm n (Some v) = Raise (version_not_found v n)).
Proof.
  split.
  - intros Hunknown. unfold list_versions, get_changelog. rewrite Hunknown.
    split; [|done]. intros v. by apply get_prompt_unknown.
  - intros loaded v Hloaded Hv Hmissing. unfold get_prompt. rewrite Hloaded.
    cbn [resolve_version]. apply String.eqb_neq in Hv as ->.
    cbn [mbind result_bind]. by rewrite Hmissing.
Qed.

Lemma unknown_lookups_raise_witness :
  (get_prompt greeting_store "nonexistent" None
   = Raise (ValueError "Prompt 'nonexistent' not found")
   ∧ list_versions greeting_store "nonexistent"
     = Raise (ValueError "Prompt 'nonexistent' not found")
   ∧ get_changelog greeting_store "nonexistent"
     = Raise (ValueError "Prompt 'nonexistent' not found"))
  ∧ get_prompt greeting_store "greeting" (Some "vX")
    = Raise (ValueError "Version 'vX' not found for prompt 'greeting'").
Proof.
  destruct (unknown_lookups_raise greeting_store "nonexistent") as [Hname _].
  destruct (unknown_lookups_raise greeting_store "greeting") as [_ Hversion].
  split.
  - destruct Hname as (Hget & Hlist & Hlog); [by vm_compute|].
    split; [apply Hget|]. by split.
  - apply (Hversion (default ∅ (cache greeting_store !! "greeting")));
      by vm_compute.
Defined.

(** ** Rendering *)




(** ** The research loop *)

(** C1: when the last message of the state is an assistant turn,
    [should_continue] answers ["compress_research"] exactly when the turn
    carries no tool call and ["tool_node"] exactly when it carries at least
    one; the graph then enters the compression node, respectively the tool
    node.  The answer is the same for any two such states whose last turns
    agree on having tool calls or not, whatever the calls, the rest of the
    conversation and the iteration counter are. *)
Theorem should_continue_routes
    (state : ResearcherState) (text : string) (calls : list ToolCall) :
  last (researcher_messages state) = Some (AIMessage text calls) →
  (should_continue state = Ok "compress_research" ↔ calls = [])
  ∧ (should_continue state = Ok "tool_node" ↔ calls ≠ [])
  ∧ (calls = [] → next_node node_llm_call state = Ok node_compress_research)
  ∧ (calls ≠ [] → next_node node_llm_call state = Ok node_tool_node)
  ∧ (∀ state' text' calls',
       last (researcher_messages state') = Some (AIMessage text' calls') →
       (calls = [] ↔ calls' = []) →
       should_continue state = should_continue state').
Proof.
  intros Hlast.
  assert (∀ st t cs, last (researcher_messages st) = Some (AIMessage t cs) →
            should_continue st
            = match cs with
              | [] => Ok "compress_research"
              | _ :: _ => Ok "tool_node"
              end) as Hroute.
  { intros st t cs H. unfold should_continue, last_message. rewrite H.
    by destruct cs. }
  cbn [next_node]. rewrite (Hroute _ _ _ Hlast).
  destruct calls as [|call calls]; split_and!; try done.
  - intros state' text' calls' Hlast' Hsame. rewrite (Hroute _ _ _ Hlast').
    by rewrite (proj1 Hsame eq_refl).
  - intros state' text' calls' Hlast' Hsame. rewrite (Hroute _ _ _ Hlast').
    destruct calls'; [|done]. discriminate (proj2 Hsame eq_refl).
Qed.

Lemma should_continue_routes_witness :
  (should_continue (session [HumanMessage "q"; AIMessage "A" [search_call]] EmptyString)
   = Ok "tool_node" ↔ [search_call] ≠ [])
  ∧ (should_continue (session [HumanMessage "q"; AIMessage "B" []] EmptyString)
     = Ok "compress_research" ↔ @nil ToolCall = []).
Proof.
  split.
  - apply (should_continue_routes
             (session [HumanMessage "q"; AIMessage "A" [search_call]] EmptyString)
             "A" [search_call] eq_refl).
  - apply (should_continue_routes
             (session [HumanMessage "q"; AIMessage "B" []] EmptyString) "B" [] eq_refl).
Defined.

(** ** Tool execution *)

Section tools.
Context (env : Env).
Implicit Types (calls : list ToolCall) (observations : list string).

Lemma invoke_tools_served calls :
  (∀ call, call ∈ calls → served env call) →
  is_Ok (invoke_tools (tools_by_name env) calls).
Proof.
  induction calls as [|call calls IH]; intros Hserved; [by eexists|].
  destruct (Hserved call) as (tool & observation & Htool & Hobs); [by left|].
  destruct IH as [observations Hrest].
  { intros call' Hcall'. apply Hserved. by right. }
  exists (observation :: observations). cbn [invoke_tools].
  rewrite Htool. cbn [mbind result_bind]. rewrite Hobs. cbn [mbind result_bind].
  by rewrite Hrest.
Qed.

Lemma invoke_tools_Ok calls observations :
  invoke_tools (tools_by_name env) calls = Ok observations →
  length observations = length calls
  ∧ ∀ i call, calls !! i = Some call →
      ∃ tool observation,
        tools_by_name env !! tc_name call = Some tool
        ∧ tool (tc_args call) = Ok observation
        ∧ observations !! i = Some observation.
Proof.
  revert observations.
  induction calls as [|call calls IH]; intros observations.
  - intros [= <-]. split; [done|]. by intros i call.
  - cbn [invoke_tools].
    destruct (tools_by_name env !! tc_name call) as [tool|] eqn:Htool; [|done].
    cbn [mbind result_bind].
    destruct (tool (tc_args call)) as [observation|] eqn:Hobs; [|done].
    cbn [mbind result_bind].
    destruct (invoke_tools (tools_by_name env) calls) as [rest|] eqn:Hrest;
      [|done].
    cbn [mbind result_bind]. intros [= <-].
    destruct (IH rest eq_refl) as [Hlen Hnth].
    split; [by rewrite !length_cons, Hlen|].
    intros [|i] call'.
    + intros [= <-]. eauto.
    + apply Hnth.
Qed.

Lemma tool_outputs_lookup observations calls i observation call :
  observations !! i = Some observation →
  calls !! i = Some call →
  tool_outputs observations calls !! i
  = Some (ToolMessage observation (tc_name call) (tc_id call)).
Proof.
  intros Hobs Hcall. unfold tool_outputs.
  by rewrite lookup_zip_with, Hobs, Hcall.
Qed.

Lemma tool_outputs_length observations calls :
  length observations = length calls →
  length (tool_outputs observations calls) = length calls.
Proof. intros Hlen. unfold tool_outputs. rewrite length_zip_with. lia. Qed.
End tools.

(** C2: when the last message is an assistant turn with k >= 1 tool-call
    requests, a tool step that completes returns exactly k tool-result
    turns; the i-th carries the tool name and the request identifier of
    the i-th request and the observation of that request's tool; the turns
    are appended to the conversation in that order and the graph goes back
    to the decision node.  The step completes whenever every requested
    tool is registered and returns. *)
Theorem tool_node_appends_results
    (env : Env) (state : ResearcherState) (text : string) (calls : list ToolCall) :
  last (researcher_messages state) = Some (AIMessage text calls) →
  calls ≠ [] →
  ((∀ call, call ∈ calls → served env call) → is_Ok (tool_node env state))
  ∧ ∀ u, tool_node env state = Ok u →
      ∃ results,
        upd_researcher_messages u = Some results
        ∧ length results = length calls
        ∧ (∀ i call, calls !! i = Some call →
             ∃ tool observation,
               tools_by_name env !! tc_name call = Some tool
               ∧ tool (tc_args call) = Ok observation
               ∧ results !! i
                 = Some (ToolMessage observation (tc_name call) (tc_id call)))
        ∧ graph_step env node_tool_node state
          = Ok (node_llm_call, apply_update state u)
        ∧ researcher_messages (apply_update state u)
          = researcher_messages state ++ results.
Proof.
  intros Hlast _. unfold graph_step. cbn [run_node next_node].
  unfold tool_node, last_message. rewrite Hlast.
  cbn [mbind result_bind tool_calls]. split.
  - intros [observations ->]%invoke_tools_served. by eexists.
  - intros u.
    destruct (invoke_tools (tools_by_name env) calls) as [observations|] eqn:Hrun;
      [|done].
    cbn [mbind result_bind]. intros [= <-].
    destruct (invoke_tools_Ok env calls observations Hrun) as [Hlen Hnth].
    exists (tool_outputs observations calls). split_and!; try done.
    + by apply tool_outputs_length.
    + intros i call Hcall.
      destruct (Hnth i call Hcall) as (tool & observation & Htool & Hobs & Hi).
      exists tool, observation. split_and!; try done.
      by apply tool_outputs_lookup.
Qed.

Lemma tool_node_appends_results_witness :
  graph_step agent_env node_tool_node
    (session [HumanMessage "q"; AIMessage "A" [search_call; think_call]] EmptyString)
  = Ok (node_llm_call,
        session [HumanMessage "q"; AIMessage "A" [search_call; think_call];
                 ToolMessage "results" "tavily_search" "call_1";
                 ToolMessage "noted" "think_tool" "call_2"] EmptyString).
Proof.
  destruct (tool_node_appends_results agent_env
              (session [HumanMessage "q"; AIMessage "A" [search_call; think_call]] EmptyString)
              "A" [search_call; think_call] eq_refl ltac:(done))
    as [_ Hresults].
  destruct (Hresults
              (mkUpdate (Some [ToolMessage "results" "tavily_search" "call_1";
                               ToolMessage "noted" "think_tool" "call_2"])
                        None None None) eq_refl)
    as (results & _ & _ & _ & Hstep & _).
  exact Hstep.
Defined.

(** ** Compression and assessment *)

Lemma filter_messages_tool_ai (messages : list Message) :
  filter_messages messages ["tool"; "ai"]
  = filter (fun m => is_assistant_or_tool_result m = true) messages.
Proof.
  unfold filter_messages. apply list_filter_iff. intros m.
  destruct m; cbn; rewrite !elem_of_cons, elem_of_nil; split;
    try (intros [H|[H|H]]; done); intros H; try done;
    first [by left | by right; left].
Qed.

Lemma join_newline (notes : list string) :
  join newline notes = joined_by_line_feeds notes.
Proof.
  unfold join. induction notes as [|note [|next rest] IH]; [done|done|].
  change (String.concat newline (note :: next :: rest))
    with (note +:+ newline +:+ String.concat newline (next :: rest)).
  by rewrite IH.
Qed.

(** C6: whenever the compression step completes, the raw-notes field it
    stores is a one-element list: the contents of the assistant and
    tool-result turns of the conversation, in their order, with a single
    line feed between one and the next.  The step completes whenever its
    two prompts resolve and render and the compression model answers. *)
Theorem compress_research_raw_notes (env : Env) (state : ResearcherState) :
  (∀ u, compress_research env state = Ok u →
     upd_raw_notes u
     = Some [joined_by_line_feeds
               (content <$> filter (fun m => is_assistant_or_tool_result m = true)
                                   (researcher_messages state))]
     ∧ raw_notes (apply_update state u)
       = [joined_by_line_feeds
            (content <$> filter (fun m => is_assistant_or_tool_result m = true)
                                (researcher_messages state))])
  ∧ (∀ system_prompt system_message user_prompt human_message response,
       get_prompt (new_prompt_manager env) "compress_research_prompt_system"
         (Some "v1.0.0") = Ok system_prompt →
       render system_prompt {[ "date" := get_today_str env ]} = Ok system_message →
       get_prompt (new_prompt_manager env) "compress_research_prompt_user"
         (Some "v1.0.0") = Ok user_prompt →
       render user_prompt {[ "research_topic" := research_topic state ]}
         = Ok human_message →
       compress_model env
         ([SystemMessage system_message] ++ researcher_messages state
            ++ [HumanMessage human_message]) = Ok response →
       is_Ok (compress_research env state)).
Proof.
  unfold compress_research, collect_raw_notes.
  rewrite filter_messages_tool_ai, join_newline. split.
  - intros u.
    destruct (get_prompt _ "compress_research_prompt_system" _); [|done].
    cbn [mbind result_bind]. destruct (render _ _); [|done].
    cbn [mbind result_bind].
    destruct (get_prompt _ "compress_research_prompt_user" _); [|done].
    cbn [mbind result_bind]. destruct (render _ _); [|done].
    cbn [mbind result_bind]. destruct (compress_model _ _); [|done].
    cbn [mbind result_bind]. by intros [= <-].
  - intros system_prompt system_message user_prompt human_message response
      Hsystem Hrendered Huser Hhuman Hresponse.
    rewrite Hsystem. cbn [mbind result_bind].
    rewrite Hrendered. cbn [mbind result_bind].
    rewrite Huser. cbn [mbind result_bind].
    rewrite Hhuman. cbn [mbind result_bind].
    rewrite Hresponse. by eexists.
Qed.

Lemma compress_research_raw_notes_witness :
  ∃ u, compress_research agent_env
         (session [HumanMessage "q"; AIMessage "A" [search_call];
                   ToolMessage "T1" "tavily_search" "call_1"; AIMessage "B" []] EmptyString)
       = Ok u
       ∧ upd_raw_notes u = Some ["A
T1
B"]
       ∧ String.length "A
T1
B" = 6.
Proof.
  eexists. split; [by vm_compute|]. split; [|done].
  apply (compress_research_raw_notes agent_env
           (session [HumanMessage "q"; AIMessage "A" [search_call];
                     ToolMessage "T1" "tavily_search" "call_1"; AIMessage "B" []] EmptyString)).
  by vm_compute.
Defined.

(** C9: the messages handed to the QA model are determined by the
    compressed-research field: two states that agree on it give the same
    messages, and the same outcome of the whole step, however their
    conversations and other fields differ.  The messages are a single
    human turn holding the QA prompt rendered with that text. *)
Theorem assess_quality_sees_compressed_only
    (env : Env) (state1 state2 : ResearcherState) :
  compressed_research state1 = compressed_research state2 →
  assess_quality_messages env state1 = assess_quality_messages env state2
  ∧ assess_quality env state1 = assess_quality env state2
  ∧ ∀ messages, assess_quality_messages env state1 = Ok messages →
      ∃ prompt text,
        get_prompt (new_prompt_manager env) "geologic_qa_prompt_user"
          (Some "v1.0.0") = Ok prompt
        ∧ render prompt {[ "research_report" := compressed_research state1 ]}
          = Ok text
        ∧ messages = [HumanMessage text].
Proof.
  intros Hsame. unfold assess_quality, assess_quality_messages.
  rewrite Hsame. split; [done|]. split; [done|]. intros messages.
  destruct (get_prompt _ _ _) as [prompt|]; [|done]. cbn [mbind result_bind].
  destruct (render _ _) as [text|] eqn:Htext; [|done]. cbn [mbind result_bind].
  intros [= <-]. by exists prompt, text.
Qed.

Lemma assess_quality_sees_compressed_only_witness :
  assess_quality_messages agent_env
    (session [HumanMessage "q"; AIMessage "secret" []] "report")
  = assess_quality_messages agent_env (session [] "report")
  ∧ assess_quality_messages agent_env (session [] "report")
    = Ok [HumanMessage "Check: report"].
Proof.
  split; [|by vm_compute].
  apply (assess_quality_sees_compressed_only agent_env
           (session [HumanMessage "q"; AIMessage "secret" []] "report")
           (session [] "report") eq_refl).
Defined.

(** * Further properties of the prompt store *)

(** ** What loading puts into the cache *)

Section load_contents.
Context (fs : FileSystem) (dir : string).

Lemma load_prompt_dir_lookup (item : string * ManifestEntry)
    (c : gmap string (gmap string PromptTemplate)) (n : string) :
  load_prompt_dir fs dir c item !! n
  = if decide (item.1 = n) then
      match fs_listdir fs !! n with
      | Some listing => Some (foldl (load_version_file dir n) ∅ listing)
      | None => c !! n
      end
    else c !! n.
Proof.
  unfold load_prompt_dir. case_decide as Hn.
  - subst n. destruct (fs_listdir fs !! item.1); [|done].
    by rewrite lookup_insert_eq.
  - destruct (fs_listdir fs !! item.1); [|done]. by rewrite lookup_insert_ne.
Qed.

Lemma load_dirs_lookup (items : list (string * ManifestEntry))
    (c : gmap string (gmap string PromptTemplate)) (n : string) :
  foldl (load_prompt_dir fs dir) c items !! n
  = if decide (n ∈ items.*1) then
      match fs_listdir fs !! n with
      | Some listing => Some (foldl (load_version_file dir n) ∅ listing)
      | None => c !! n
      end
    else c !! n.
Proof.
  revert c. induction items as [|item items IH]; intros c.
  - cbn. case_decide as Hin; [by apply elem_of_nil in Hin|done].
  - cbn [foldl]. rewrite IH, load_prompt_dir_lookup, fmap_cons.
    destruct (decide (item.1 = n)) as [Heq|Hne].
    + rewrite (decide_True (P := n ∈ item.1 :: items.*1)) by (subst n; left).
      destruct (fs_listdir fs !! n); by case_decide.
    + destruct (decide (n ∈ items.*1)) as [Hin|Hin].
      * by rewrite decide_True by by right.
      * rewrite decide_False; [done|].
        intros [?|?]%elem_of_cons; [by apply Hne|by apply Hin].
Qed.

Lemma cache_init_lookup (n : string) :
  cache (PromptManager_init fs dir) !! n
  = match prompts (_load_manifest fs) !! n with
    | Some _ => foldl (load_version_file dir n) ∅ <$> fs_listdir fs !! n
    | None => None
    end.
Proof.
  cbn [PromptManager_init cache]. unfold _load_all_prompts.
  rewrite load_dirs_lookup, lookup_empty.
  destruct (prompts (_load_manifest fs) !! n) as [config|] eqn:Hconfig.
  - rewrite decide_True.
    + by destruct (fs_listdir fs !! n).
    + apply list_elem_of_fmap. exists (n, config). split; [done|].
      by apply elem_of_map_to_list.
  - rewrite decide_False; [done|].
    intros ([n' config] & -> & Hin)%list_elem_of_fmap.
    apply elem_of_map_to_list in Hin. cbn in Hin, Hconfig. congruence.
Qed.

Lemma load_listing_filter (n : string) (listing : list (string * result Post))
    (loaded : gmap string PromptTemplate) :
  foldl (load_version_file dir n) loaded (filter (fun e => loadable e = true) listing)
  = foldl (load_version_file dir n) loaded listing.
Proof.
  revert loaded. induction listing as [|entry listing IH]; intros loaded; [done|].
  rewrite filter_cons. cbn [foldl]. rewrite <- IH. case_decide as Hload.
  - done.
  - f_equal. apply not_true_is_false in Hload.
    unfold loadable in Hload. unfold load_version_file.
    destruct (endswith entry.1 ".md"); [|done]. cbn [andb] in Hload.
    unfold _load_prompt_file. by destruct entry.2.
Qed.

Lemma load_listing_origin (n : string) (listing : list (string * result Post))
    (loaded : gmap string PromptTemplate) (v : string) (t : PromptTemplate) :
  foldl (load_version_file dir n) loaded listing !! v = Some t →
  loaded !! v = Some t
  ∨ ∃ filename post,
      (filename, Ok post) ∈ listing
      ∧ endswith filename ".md" = true
      ∧ v = replace filename ".md" EmptyString
      ∧ _load_prompt_file n v (path_join (path_join dir n) filename) (Ok post)
        = Ok t.
Proof.
  revert loaded. induction listing as [|[filename opened] listing IH];
    intros loaded; [by left|].
  cbn [foldl]. intros [Hstep|(f & p & Hin & Hrest)]%IH.
  - unfold load_version_file in Hstep. cbn [fst snd] in Hstep.
    destruct (endswith filename ".md") eqn:Hmd; [|by left].
    destruct opened as [post|e]; [|by left].
    cbn in Hstep. apply lookup_insert_Some in Hstep as [[<- <-]|[_ Hold]].
    + right. exists filename, post. split; [by left|done].
    + by left.
  - right. exists f, p. split; [by right|done].
Qed.

Lemma load_listing_loaded (n : string) (listing : list (string * result Post))
    (loaded : gmap string PromptTemplate) (filename : string) (post : Post) :
  (filename, Ok post) ∈ listing →
  endswith filename ".md" = true →
  is_Some (foldl (load_version_file dir n) loaded listing
             !! replace filename ".md" EmptyString).
Proof.
  assert (∀ l (m : gmap string PromptTemplate) v,
            is_Some (m !! v) →
            is_Some (foldl (load_version_file dir n) m l !! v)) as Hkeep.
  { induction l as [|entry l IHl]; intros m v Hv; [done|].
    cbn [foldl]. apply IHl. unfold load_version_file.
    destruct (endswith entry.1 ".md"); [|done].
    destruct (_load_prompt_file _ _ _ _); [|done].
    rewrite lookup_insert. by case_decide. }
  revert loaded. induction listing as [|entry listing IH]; intros loaded Hin Hmd.
  - by apply elem_of_nil in Hin.
  - cbn [foldl]. apply elem_of_cons in Hin as [<-|Hin]; [|by eapply IH].
    apply Hkeep. unfold load_version_file. cbn [fst snd]. rewrite Hmd.
    cbn. by rewrite lookup_insert_eq.
Qed.
End load_contents.

Lemma loaded_from_file (fs : FileSystem) (dir n : string)
    (loaded : gmap string PromptTemplate) (v : string) (t : PromptTemplate) :
  cache (PromptManager_init fs dir) !! n = Some loaded →
  loaded !! v = Some t →
  ∃ filename post,
    (∃ listing, fs_listdir fs !! n = Some listing ∧ (filename, Ok post) ∈ listing)
    ∧ endswith filename ".md" = true
    ∧ v = replace filename ".md" EmptyString
    ∧ file_path t = path_join (path_join dir n) filename
    ∧ template t = strip (post_content post).
Proof.
  rewrite cache_init_lookup. destruct (prompts _ !! n); [|done].
  destruct (fs_listdir fs !! n) as [listing|]; [|done]. cbn.
  intros [= <-] [Hempty|(filename & post & Hin & Hmd & Hv & Hload)]%load_listing_origin.
  - by rewrite lookup_empty in Hempty.
  - exists filename, post. cbn in Hload. injection Hload as <-.
    split; [by exists listing|done].
Qed.

(** X1: the prompt names a freshly built manager knows are exactly the
    names the manifest declares whose directory exists; without a manifest
    file nothing is loaded, whatever directories there are. *)
Theorem known_names_are_declared_directories (fs : FileSystem) (dir n : string) :
  (n ∈ list_prompts (PromptManager_init fs dir)
   ↔ is_Some (prompts (_load_manifest fs) !! n) ∧ is_Some (fs_listdir fs !! n))
  ∧ list_prompts (PromptManager_init (mkFileSystem None (fs_listdir fs)) dir) = ∅.
Proof.
  assert (∀ m, m ∈ list_prompts (PromptManager_init fs dir)
               ↔ is_Some (prompts (_load_manifest fs) !! m)
                 ∧ is_Some (fs_listdir fs !! m)) as Hiff.
  { intros m. unfold list_prompts. rewrite elem_of_dom, cache_init_lookup.
    destruct (prompts (_load_manifest fs) !! m) as [config|].
    - rewrite fmap_is_Some. split; [by intros; split|by intros []].
    - split; [by intros []|by intros [[] _]]. }
  split; [apply Hiff|]. apply set_eq. intros m.
  unfold list_prompts. rewrite elem_of_dom, cache_init_lookup. cbn.
  rewrite lookup_empty, elem_of_empty. split; [by intros []|done].
Qed.

(** X2: a file that is not named [*.md], or that fails to open or parse,
    has no effect on what is loaded: the cache is the one obtained from
    the directories with those files removed. *)
Theorem unloadable_files_have_no_effect (fs : FileSystem) (dir : string) :
  cache (PromptManager_init fs dir)
  = cache (PromptManager_init
             (mkFileSystem (fs_manifest fs)
                (filter (fun entry => loadable entry = true) <$> fs_listdir fs))
             dir).
Proof.
  apply map_eq. intros n. rewrite !cache_init_lookup.
  unfold _load_manifest. cbn [fs_manifest fs_listdir].
  destruct (prompts _ !! n); [|done]. rewrite lookup_fmap.
  destruct (fs_listdir fs !! n) as [listing|]; [|done]. cbn.
  by rewrite load_listing_filter.
Qed.

(** X3: every template in the cache of a freshly built manager was read
    from a [.md] file of its prompt's directory that opened and parsed:
    its version is the file name with [.md] removed and it is what
    [_load_prompt_file] makes of that file (body stripped, missing
    metadata defaulted).  Conversely every such file makes its version
    resolvable. *)
Theorem loaded_templates_come_from_files
    (fs : FileSystem) (dir n : string) (loaded : gmap string PromptTemplate) :
  cache (PromptManager_init fs dir) !! n = Some loaded →
  ∃ listing,
    fs_listdir fs !! n = Some listing
    ∧ (∀ v t, loaded !! v = Some t →
         ∃ filename post,
           (filename, Ok post) ∈ listing
           ∧ endswith filename ".md" = true
           ∧ v = replace filename ".md" EmptyString
           ∧ _load_prompt_file n v (path_join (path_join dir n) filename) (Ok post)
             = Ok t
           ∧ template t = strip (post_content post))
    ∧ (∀ filename post,
         (filename, Ok post) ∈ listing → endswith filename ".md" = true →
         is_Some (loaded !! replace filename ".md" EmptyString)).
Proof.
  rewrite cache_init_lookup. destruct (prompts _ !! n); [|done].
  destruct (fs_listdir fs !! n) as [listing|]; [|done]. cbn.
  intros [= <-]. exists listing. split; [done|]. split.
  - intros v t [Hempty|(filename & post & Hin & Hmd & Hv & Hload)]%load_listing_origin.
    + by rewrite lookup_empty in Hempty.
    + exists filename, post. split_and!; try done.
      cbn in Hload. by injection Hload as <-.
  - intros filename post Hin Hmd. by eapply load_listing_loaded.
Qed.

Lemma loaded_templates_come_from_files_witness :
  ∃ loaded t filename post,
    cache (PromptManager_init padded_fs "prompts/") !! "greeting" = Some loaded
    ∧ loaded !! "v2" = Some t
    ∧ (filename, Ok post) ∈ default [] (fs_listdir padded_fs !! "greeting")
    ∧ _load_prompt_file "greeting" "v2"
        (path_join (path_join "prompts/" "greeting") filename) (Ok post)
      = Ok t
    ∧ template t = strip (post_content post)
    ∧ template t = "Hello {name}"
    ∧ file_path t = "prompts/greeting/v2.md".
Proof.
  assert (∃ loaded t,
            cache (PromptManager_init padded_fs "prompts/") !! "greeting" = Some loaded
            ∧ loaded !! "v2" = Some t
            ∧ template t = "Hello {name}"
            ∧ file_path t = "prompts/greeting/v2.md")
    as (loaded & t & Hloaded & Ht & Hbody & Hpath).
  { eexists _, _. split; [by vm_compute|]. split; [by vm_compute|].
    split; by vm_compute. }
  destruct (loaded_templates_come_from_files padded_fs "prompts/" "greeting"
              loaded Hloaded) as (listing & Hdir & Hfrom & _).
  destruct (Hfrom "v2" t Ht) as (filename & post & Hin & _ & _ & Hload & Hstrip).
  exists loaded, t, filename, post. rewrite Hdir.
  split; [exact Hloaded|]. split; [exact Ht|]. split; [exact Hin|].
  split; [exact Hload|]. split; [exact Hstrip|]. split; [exact Hbody|exact Hpath].
Defined.

(** ** Listing and resolving versions *)

Lemma get_prompt_explicit (pm : PromptManager) (n v : string)
    (loaded : gmap string PromptTemplate) :
  cache pm !! n = Some loaded → v ≠ "latest" →
  get_prompt pm n (Some v)
  = match loaded !! v with
    | Some t => Ok t
    | None => Raise (version_not_found v n)
    end.
Proof.
  intros Hloaded Hv. unfold get_prompt. rewrite Hloaded. cbn [resolve_version].
  by apply String.eqb_neq in Hv as ->.
Qed.

(** X4: [list_versions] returns the loaded versions of the name in
    ascending order, each once; a version string other than ["latest"] is
    in the list exactly when [get_prompt] resolves it. *)
Theorem list_versions_sorted_and_resolvable
    (pm : PromptManager) (n : string) (versions : list string) :
  list_versions pm n = Ok versions →
  StronglySorted String.le versions
  ∧ NoDup versions
  ∧ ∀ v, v ≠ "latest" → (v ∈ versions ↔ is_Ok (get_prompt pm n (Some v))).
Proof.
  unfold list_versions. destruct (cache pm !! n) as [loaded|] eqn:Hloaded; [|done].
  intros [= <-]. split_and!.
  - apply StronglySorted_merge_sort; apply _.
  - unfold sorted. rewrite merge_sort_Permutation. apply NoDup_fst_map_to_list.
  - intros v Hv. rewrite (get_prompt_explicit pm n v loaded) by done.
    rewrite sorted_elem, loaded_versions_elem.
    destruct (loaded !! v) as [t|].
    + split; [by eexists|by eexists].
    + split; [by intros []|by intros []].
Qed.

Lemma list_versions_sorted_and_resolvable_witness :
  StronglySorted String.le ["v10"; "v9"]
  ∧ NoDup ["v10"; "v9"]
  ∧ ∀ v, v ≠ "latest" →
      (v ∈ ["v10"; "v9"] ↔ is_Ok (get_prompt greeting_store "notes" (Some v))).
Proof.
  apply (list_versions_sorted_and_resolvable greeting_store "notes").
  by vm_compute.
Defined.

(** X5: the keys of the changelog are the versions [list_versions]
    lists, and the entry of a version other than ["latest"] holds the
    date, author and change note of the template [get_prompt] resolves
    for it. *)
Theorem changelog_matches_versions
    (pm : PromptManager) (n : string) (log : gmap string ChangelogEntry) :
  get_changelog pm n = Ok log →
  (∃ versions, list_versions pm n = Ok versions
               ∧ ∀ v, v ∈ versions ↔ is_Some (log !! v))
  ∧ ∀ v, v ≠ "latest" →
      match get_prompt pm n (Some v) with
      | Ok t => log !! v = Some (mkChangelogEntry (date t) (author t) (changes t))
      | Raise _ => log !! v = None
      end.
Proof.
  unfold get_changelog, list_versions.
  destruct (cache pm !! n) as [loaded|] eqn:Hloaded; [|done].
  intros [= <-]. split.
  - eexists. split; [done|]. intros v.
    by rewrite sorted_elem, loaded_versions_elem, lookup_fmap, fmap_is_Some.
  - intros v Hv. rewrite (get_prompt_explicit pm n v loaded) by done.
    rewrite lookup_fmap. by destruct (loaded !! v).
Qed.

Lemma changelog_matches_versions_witness :
  ∃ log, get_changelog tagged_store "greeting" = Ok log
         ∧ log !! "v2" = Some (mkChangelogEntry "2026-02-02" "bob" "friendlier")
         ∧ log !! "v1" = Some (mkChangelogEntry "unknown" "ada" EmptyString).
Proof.
  eexists. split; [by vm_compute|].
  pose proof (changelog_matches_versions tagged_store "greeting" _ eq_refl)
    as [_ Hentry].
  split.
  - by apply (Hentry "v2").
  - by apply (Hentry "v1").
Defined.

(** X6: in a freshly built manager a resolved template carries the name
    it was asked under; asked for an explicit version other than
    ["latest"] it carries that version; and resolving again with the
    version of the returned template gives the same template. *)
Theorem resolved_template_is_the_one_asked_for
    (fs : FileSystem) (dir n : string) (v : option string) (t : PromptTemplate) :
  get_prompt (PromptManager_init fs dir) n v = Ok t →
  name t = n
  ∧ (∀ w, v = Some w → w ≠ "latest" → version t = w)
  ∧ (version t ≠ "latest" →
     get_prompt (PromptManager_init fs dir) n (Some (version t)) = Ok t).
Proof.
  intros Hget.
  pose proof Hget as (loaded & w & Hloaded & Hw & Ht)%get_prompt_Ok.
  destruct (PromptManager_init_ok fs dir n loaded Hloaded w t Ht)
    as (Hname & Hversion & _).
  split; [done|]. split.
  - intros w' -> Hlatest. cbn [resolve_version] in Hw.
    apply String.eqb_neq in Hlatest. rewrite Hlatest in Hw. congruence.
  - intros Hlatest. rewrite (get_prompt_explicit _ n _ loaded) by done.
    by rewrite Hversion, Ht.
Qed.

Lemma resolved_template_is_the_one_asked_for_witness :
  ∃ t, get_prompt greeting_store "greeting" None = Ok t
       ∧ name t = "greeting"
       ∧ get_prompt greeting_store "greeting" (Some (version t)) = Ok t.
Proof.
  eexists. split; [by vm_compute|].
  destruct (resolved_template_is_the_one_asked_for greeting_fs "prompts"
              "greeting" None _ eq_refl) as (Hname & _ & Hagain).
  split; [exact Hname|]. by apply Hagain.
Defined.

(** X7: a declared prompt whose directory exists but holds no loadable
    file is known to the manager with an empty version list, and nothing
    resolves under its name.  An explicit version raises "Version ... not
    found".  Without a version the manager raises "No versions found" when
    the manifest entry is a mapping with no latest version, or an empty
    one, and "Version ... not found" for a declared latest version that is
    a non-empty string. *)
Theorem directory_without_loadable_files
    (fs : FileSystem) (dir n : string) (listing : list (string * result Post)) :
  is_Some (prompts (_load_manifest fs) !! n) →
  fs_listdir fs !! n = Some listing →
  Forall (fun entry => loadable entry = false) listing →
  list_versions (PromptManager_init fs dir) n = Ok []
  ∧ (∀ v, ¬ is_Ok (get_prompt (PromptManager_init fs dir) n v))
  ∧ (∀ v, v ≠ "latest" →
       get_prompt (PromptManager_init fs dir) n (Some v)
       = Raise (version_not_found v n))
  ∧ (∀ declared,
       manifest_latest (PromptManager_init fs dir) n = Ok declared →
       truthy declared = false →
       get_prompt (PromptManager_init fs dir) n None
       = Raise (no_versions_found n))
  ∧ (∀ v,
       manifest_latest (PromptManager_init fs dir) n = Ok (Some (Str v)) →
       v ≠ EmptyString →
       get_prompt (PromptManager_init fs dir) n None
       = Raise (version_not_found v n)).
Proof.
  intros [config Hconfig] Hdir Hnone.
  assert (cache (PromptManager_init fs dir) !! n = Some ∅) as Hcache.
  { assert (filter (fun e => loadable e = true) listing = []) as Hfilter.
    { clear Hdir. induction Hnone as [|entry rest Hentry _ IH]; [done|].
      rewrite filter_cons_False; [done|]. by rewrite Hentry. }
    rewrite cache_init_lookup, Hconfig, Hdir. cbn. f_equal.
    by rewrite <- load_listing_filter, Hfilter. }
  split_and!.
  - unfold list_versions. by rewrite Hcache.
  - intros v [t (loaded & w & Hloaded & _ & Ht)%get_prompt_Ok].
    rewrite Hcache in Hloaded. injection Hloaded as <-.
    by rewrite lookup_empty in Ht.
  - intros v Hv. rewrite (get_prompt_explicit _ n v ∅) by done.
    by rewrite lookup_empty.
  - intros declared Hdeclared Hfalse. unfold get_prompt. rewrite Hcache.
    cbn [resolve_version].
    by rewrite (latest_version_fallback _ n ∅ declared).
  - intros v Hdeclared Hv. unfold get_prompt. rewrite Hcache.
    cbn [resolve_version]. rewrite (latest_version_declared _ n ∅ v) by done.
    cbn [mbind result_bind]. by rewrite lookup_empty.
Qed.

Lemma directory_without_loadable_files_witness :
  list_versions (PromptManager_init drafts_fs "prompts") "drafts" = Ok []
  ∧ get_prompt (PromptManager_init drafts_fs "prompts") "drafts" (Some "v1")
    = Raise (ValueError "Version 'v1' not found for prompt 'drafts'")
  ∧ get_prompt (PromptManager_init drafts_fs "prompts") "drafts" None
    = Raise (ValueError "No versions found for prompt 'drafts'").
Proof.
  destruct (directory_without_loadable_files drafts_fs "prompts" "drafts"
              [ ("notes.txt", plain_post "text");
                ("v1.md", Raise (ExternalError "unreadable")) ])
    as (Hlist & _ & Hexplicit & Hfallback & _).
  - eexists. by vm_compute.
  - by vm_compute.
  - repeat constructor.
  - split; [exact Hlist|]. split.
    + by apply (Hexplicit "v1").
    + by apply (Hfallback None).
Defined.

(** ** Comparing versions *)

(** X8: comparing a version with itself, when it resolves, reports no
    difference: the content is unchanged, the two fingerprints are equal,
    no tag is added or removed and the model hints are unchanged. *)
Theorem compare_versions_same_version
    (pm : PromptManager) (n v : string) (d : VersionDiff) :
  compare_versions pm n v v = Ok d →
  content_changed d = false
  ∧ hash1 d = hash2 d
  ∧ tags_added d = ∅
  ∧ tags_removed d = ∅
  ∧ model_hints_changed d = false.
Proof.
  unfold compare_versions. destruct (get_prompt pm n (Some v)) as [t|]; [|done].
  cbn. intros [= <-]. cbn. rewrite String.eqb_refl.
  rewrite bool_decide_eq_true_2 by done.
  split_and!; try done; apply difference_diag_L.
Qed.

Lemma compare_versions_same_version_witness :
  ∃ d, compare_versions tagged_store "greeting" "v2" "v2" = Ok d
       ∧ content_changed d = false
       ∧ hash1 d = hash2 d
       ∧ tags_added d = ∅
       ∧ tags_removed d = ∅
       ∧ model_hints_changed d = false.
Proof.
  eexists. split; [by vm_compute|].
  apply (compare_versions_same_version tagged_store "greeting" "v2").
  by vm_compute.
Defined.

(** X9: comparing in the other direction also succeeds and mirrors the
    report: the fingerprints and the added and removed tags change places,
    the two change flags are the same.  No tag is both added and
    removed. *)
Theorem compare_versions_swapped
    (pm : PromptManager) (n v1 v2 : string) (d : VersionDiff) :
  compare_versions pm n v1 v2 = Ok d →
  tags_added d ## tags_removed d
  ∧ ∃ d', compare_versions pm n v2 v1 = Ok d'
          ∧ content_changed d' = content_changed d
          ∧ model_hints_changed d' = model_hints_changed d
          ∧ hash1 d' = hash2 d ∧ hash2 d' = hash1 d
          ∧ tags_added d' = tags_removed d ∧ tags_removed d' = tags_added d.
Proof.
  unfold compare_versions.
  destruct (get_prompt pm n (Some v1)) as [t1|]; [|done]. cbn.
  destruct (get_prompt pm n (Some v2)) as [t2|]; [|done]. cbn.
  intros [= <-]. cbn. split.
  { apply elem_of_disjoint.
    intros tag [_ Hnot]%elem_of_difference [Hin _]%elem_of_difference.
    by apply Hnot. }
  eexists. split; [done|]. cbn. split_and!; try done.
  - by rewrite String.eqb_sym.
  - f_equal. apply bool_decide_ext. split; by intros ->.
Qed.

Lemma compare_versions_swapped_witness :
  ∃ d d', compare_versions tagged_store "greeting" "v1" "v2" = Ok d
          ∧ compare_versions tagged_store "greeting" "v2" "v1" = Ok d'
          ∧ tags_added d = {[ "warm" ]} ∧ tags_removed d' = {[ "warm" ]}
          ∧ tags_removed d = {[ "draft" ]} ∧ tags_added d' = {[ "draft" ]}.
Proof.
  assert (∃ d, compare_versions tagged_store "greeting" "v1" "v2" = Ok d
               ∧ tags_added d = {[ "warm" ]} ∧ tags_removed d = {[ "draft" ]})
    as (d & Hd & Hadd & Hrem).
  { eexists. split; [by vm_compute|]. split; by vm_compute. }
  destruct (compare_versions_swapped tagged_store "greeting" "v1" "v2" d Hd)
    as (_ & d' & Hd' & _ & _ & _ & _ & Hadded & Hremoved).
  exists d, d'. rewrite Hadded, Hremoved. by split_and!.
Defined.

(** X10: in a freshly built manager the report is about the two resolved
    templates: a tag is added exactly when the second has it and the first
    has not, removed exactly in the opposite case; and when the report
    says the content is unchanged the two fingerprints are equal, so
    different fingerprints always come with [content_changed]. *)
Theorem compare_versions_reports_the_difference
    (fs : FileSystem) (dir n v1 v2 : string) (d : VersionDiff) :
  compare_versions (PromptManager_init fs dir) n v1 v2 = Ok d →
  ∃ t1 t2,
    get_prompt (PromptManager_init fs dir) n (Some v1) = Ok t1
    ∧ get_prompt (PromptManager_init fs dir) n (Some v2) = Ok t2
    ∧ (content_changed d = false ↔ template t1 = template t2)
    ∧ (content_changed d = false → hash1 d = hash2 d)
    ∧ (hash1 d ≠ hash2 d → content_changed d = true)
    ∧ (∀ tag, tag ∈ tags_added d ↔ tag ∈ tags t2 ∧ tag ∉ tags t1)
    ∧ (∀ tag, tag ∈ tags_removed d ↔ tag ∈ tags t1 ∧ tag ∉ tags t2)
    ∧ (model_hints_changed d = false ↔ model_hints t1 = model_hints t2).
Proof.
  unfold compare_versions.
  destruct (get_prompt _ n (Some v1)) as [t1|] eqn:H1; [|done]. cbn.
  destruct (get_prompt _ n (Some v2)) as [t2|] eqn:H2; [|done]. cbn.
  intros [= <-]. exists t1, t2. cbn.
  assert (negb (String.eqb (template t1) (template t2)) = false
          ↔ template t1 = template t2) as Hbody.
  { rewrite negb_false_iff. apply String.eqb_eq. }
  assert (template t1 = template t2 → content_hash t1 = content_hash t2) as Hhash.
  { intros Hsame.
    pose proof H1 as (l1 & w1 & Hl1 & _ & Ht1)%get_prompt_Ok.
    pose proof H2 as (l2 & w2 & Hl2 & _ & Ht2)%get_prompt_Ok.
    destruct (PromptManager_init_ok fs dir n l1 Hl1 w1 t1 Ht1) as (_ & _ & ->).
    destruct (PromptManager_init_ok fs dir n l2 Hl2 w2 t2 Ht2) as (_ & _ & ->).
    by rewrite Hsame. }
  split_and!; try done.
  - intros Hunchanged. by apply Hhash, Hbody.
  - intros Hdiff. apply not_false_iff_true. intros Hunchanged.
    by apply Hdiff, Hhash, Hbody.
  - intros tag. rewrite elem_of_difference, !elem_of_list_to_set. done.
  - intros tag. rewrite elem_of_difference, !elem_of_list_to_set. done.
  - rewrite negb_false_iff. apply bool_decide_eq_true.
Qed.

Lemma compare_versions_reports_the_difference_witness :
  ∃ d t1 t2,
    compare_versions tagged_store "greeting" "v1" "latest" = Ok d
    ∧ get_prompt tagged_store "greeting" (Some "v1") = Ok t1
    ∧ get_prompt tagged_store "greeting" (Some "latest") = Ok t2
    ∧ (content_changed d = false ↔ template t1 = template t2)
    ∧ (∀ tag, tag ∈ tags_added d ↔ tag ∈ tags t2 ∧ tag ∉ tags t1).
Proof.
  assert (∃ d, compare_versions tagged_store "greeting" "v1" "latest" = Ok d)
    as [d Hd].
  { eexists. by vm_compute. }
  destruct (compare_versions_reports_the_difference tagged_fs "prompts"
              "greeting" "v1" "latest" d Hd)
    as (t1 & t2 & H1 & H2 & Hbody & _ & _ & Hadded & _).
  exists d, t1, t2. by split_and!.
Defined.

(** ** A/B variants *)

(** X11: [get_ab_test_variants] succeeds exactly when every listed
    version resolves; it then returns one template per listed version, in
    the order of the list, each the one [get_prompt] resolves. *)
Theorem ab_test_variants_resolve_each
    (pm : PromptManager) (n : string) (variants : list string) :
  (is_Ok (get_ab_test_variants pm n variants)
   ↔ ∀ v, v ∈ variants → is_Ok (get_prompt pm n (Some v)))
  ∧ ∀ ts, get_ab_test_variants pm n variants = Ok ts →
      length ts = length variants
      ∧ ∀ i v, variants !! i = Some v →
          ∃ t, ts !! i = Some t ∧ get_prompt pm n (Some v) = Ok t.
Proof.
  induction variants as [|v variants [IHok IHts]].
  - split.
    + split; [by intros _ v ?%elem_of_nil|by eexists].
    + intros ts [= <-]. split; [done|]. by intros i v.
  - cbn [get_ab_test_variants]. split.
    + split.
      * intros [ts Hts] w Hw.
        destruct (get_prompt pm n (Some v)) as [t|] eqn:Hv; [|done].
        cbn in Hts.
        destruct (get_ab_test_variants pm n variants) as [ts'|] eqn:Hrest; [|done].
        apply elem_of_cons in Hw as [->|Hw]; [by eexists|].
        apply IHok; [by eexists|done].
      * intros Hall. destruct (Hall v) as [t ->]; [by left|]. cbn.
        destruct (proj2 IHok) as [ts' ->]; [|by eexists].
        intros w Hw. apply Hall. by right.
    + intros ts.
      destruct (get_prompt pm n (Some v)) as [t|] eqn:Hv; [|done]. cbn.
      destruct (get_ab_test_variants pm n variants) as [ts'|]; [|done]. cbn.
      intros [= <-]. destruct (IHts ts' eq_refl) as [Hlen Hnth].
      split; [by rewrite !length_cons, Hlen|].
      intros [|i] w.
      * intros [= <-]. by exists t.
      * apply Hnth.
Qed.

(** * Further properties of rendering *)

Section rendering.
Implicit Types (expand : string → result string).
Implicit Types (kwargs : gmap string string) (items : list Markup).

Lemma output_markup_Ok expand kwargs fname conv spec nested text :
  output_markup expand kwargs fname conv spec nested = Ok text →
  all_digits (split_first fname).1 = false
  ∧ is_Some (kwargs !! (split_first fname).1).
Proof.
  unfold output_markup, get_field_object.
  destruct (all_digits (split_first fname).1).
  - by destruct (Nat.ltb _ _).
  - destruct (has_ascii_nondigit _); [|done].
    by destruct (kwargs !! (split_first fname).1).
Qed.

Lemma output_markup_agree expand expand' kwargs kwargs' fname conv spec nested :
  kwargs !! (split_first fname).1 = kwargs' !! (split_first fname).1 →
  (nested = true → expand spec = expand' spec) →
  output_markup expand kwargs fname conv spec nested
  = output_markup expand' kwargs' fname conv spec nested.
Proof.
  unfold output_markup, get_field_object. intros -> Hexpand.
  destruct nested; [by rewrite Hexpand|done].
Qed.

Lemma do_markup_Ok expand kwargs items stopped out text :
  do_markup expand kwargs items stopped out = Ok text →
  stopped = None
  ∧ ∀ fname conv spec nested, Field fname conv spec nested ∈ items →
      all_digits (split_first fname).1 = false
      ∧ is_Some (kwargs !! (split_first fname).1).
Proof.
  revert out. induction items as [|[lit|fname conv spec nested] items IH];
    intros out; cbn [do_markup].
  - destruct stopped; [done|]. intros _. split; [done|].
    by intros ???? ?%elem_of_nil.
  - intros [Hstopped Hfields]%IH. split; [done|].
    intros ???? [?|?]%elem_of_cons; [done|by eapply Hfields].
  - destruct (output_markup expand kwargs fname conv spec nested)
      as [value|] eqn:Hvalue; [|done].
    cbn. intros [Hstopped Hfields]%IH. split; [done|].
    intros ???? [[= -> -> -> ->]|?]%elem_of_cons; [|by eapply Hfields].
    by eapply output_markup_Ok.
Qed.

Lemma do_markup_agree expand expand' kwargs kwargs' items stopped out :
  (∀ fname conv spec nested, Field fname conv spec nested ∈ items →
     kwargs !! (split_first fname).1 = kwargs' !! (split_first fname).1
     ∧ (nested = true → expand spec = expand' spec)) →
  do_markup expand kwargs items stopped out
  = do_markup expand' kwargs' items stopped out.
Proof.
  revert out. induction items as [|[lit|fname conv spec nested] items IH];
    intros out Hagree; cbn [do_markup].
  - done.
  - apply IH. intros ???? Hin. eapply Hagree. by right.
  - destruct (Hagree fname conv spec nested) as [Hkey Hspec]; [by left|].
    rewrite (output_markup_agree expand expand' kwargs kwargs') by done.
    destruct (output_markup expand' kwargs' fname conv spec nested); [|done]. cbn.
    apply IH. intros ???? Hin. eapply Hagree. by right.
Qed.

Lemma field_keys_elem (body key : string) :
  key ∈ field_keys body
  ↔ ∃ fname conv spec nested,
      Field fname conv spec nested ∈ (markups body).1
      ∧ key = (split_first fname).1.
Proof.
  unfold field_keys. rewrite list_elem_of_omap. split.
  - intros ([lit|fname conv spec nested] & Hin & Hkey); [done|].
    injection Hkey as <-. by exists fname, conv, spec, nested.
  - intros (fname & conv & spec & nested & Hin & ->).
    by exists (Field fname conv spec nested).
Qed.

Lemma all_keys_field (body fname : string) (conv : option ascii)
    (spec : string) (nested : bool) :
  Field fname conv spec nested ∈ (markups body).1 →
  (split_first fname).1 ∈ all_keys body.
Proof.
  intros Hin. unfold all_keys. apply elem_of_app. left.
  apply field_keys_elem. by exists fname, conv, spec, nested.
Qed.

Lemma all_keys_spec (body fname : string) (conv : option ascii)
    (spec key : string) :
  Field fname conv spec true ∈ (markups body).1 →
  key ∈ field_keys spec →
  key ∈ all_keys body.
Proof.
  intros Hin Hkey. unfold all_keys. apply elem_of_app. right.
  apply list_elem_of_bind. by exists (Field fname conv spec true).
Qed.
End rendering.





(** X14: doubling the braces of a text protects it: a body that is the
    escaped form of a text renders to that text whatever the variables
    are; in particular a body without braces renders to itself. *)
Theorem render_escaped_text
    (self : PromptTemplate) (text : string) (kwargs : gmap string string) :
  template self = escape text →
  render self kwargs = Ok text
  ∧ (all_chars (fun c => negb (is_brace c)) text = true → template self = text).
Proof.
  intros Hbody. unfold render, format. cbn [build_string]. unfold markups.
  rewrite Hbody. split.
  - rewrite <- (append_nil_r (escape text)), markup_go_escape.
    cbn. by rewrite !append_nil_l.
  - clear Hbody. induction text as [|c text IH]; [done|].
    cbn [all_chars escape]. intros [Hc Htext]%andb_prop.
    apply negb_true_iff in Hc. unfold is_brace in Hc. rewrite Hc.
    by rewrite IH.
Qed.

Lemma render_escaped_text_witness :
  render (a_template "Set {{x}} to {{1}}") {[ "x" := "V" ]}
  = Ok "Set {x} to {1}".
Proof.
  apply (render_escaped_text (a_template "Set {{x}} to {{1}}")
           "Set {x} to {1}").
  by vm_compute.
Defined.

(** * Telemetry attributes *)

Lemma basename_go_no_slash (tail path : string) :
  all_chars (fun c => negb (is_char c "/")) path = true →
  basename_go tail path = tail +:+ path.
Proof.
  revert tail. induction path as [|c path IH]; intros tail.
  - by rewrite append_nil_r.
  - cbn [all_chars basename_go]. intros [Hc Hpath]%andb_prop.
    apply negb_true_iff in Hc. rewrite Hc, IH by done. apply snoc_append.
Qed.

Lemma basename_go_slash (tail directory rest : string) :
  basename_go tail (directory +:+ String "/" rest) = basename_go EmptyString rest.
Proof.
  revert tail. induction directory as [|c directory IH]; intros tail.
  - done.
  - rewrite append_cons. cbn [basename_go]. by destruct (is_char c "/").
Qed.

Lemma basename_go_directory (tail directory filename : string) :
  all_chars (fun c => negb (is_char c "/")) filename = true →
  last_char directory = Some "/"%char →
  basename_go tail (directory +:+ filename) = filename.
Proof.
  intros Hname. revert tail.
  induction directory as [|c directory IH]; intros tail; [done|].
  rewrite append_cons. cbn [basename_go]. destruct directory as [|d directory].
  - intros [= ->]. rewrite append_nil_l. cbn. by rewrite basename_go_no_slash.
  - intros Hlast. change (last_char (String d directory) = Some "/"%char) in Hlast.
    destruct (is_char c "/"); by apply IH.
Qed.

Lemma startswith_slash (filename : string) :
  all_chars (fun c => negb (is_char c "/")) filename = true →
  startswith filename "/" = false.
Proof.
  destruct filename as [|c filename]; [done|]. cbn [all_chars].
  intros [Hc _]%andb_prop. apply negb_true_iff in Hc.
  unfold startswith. cbn [String.prefix].
  destruct (ascii_dec "/" c) as [<-|]; done.
Qed.

Lemma basename_path_join (directory filename : string) :
  all_chars (fun c => negb (is_char c "/")) filename = true →
  basename (path_join directory filename) = filename.
Proof.
  intros Hname. unfold basename, path_join.
  rewrite startswith_slash by done.
  destruct (String.eqb_spec directory EmptyString) as [->|_].
  { cbn [orb]. by rewrite append_nil_l, basename_go_no_slash. }
  cbn [orb]. destruct (endswith directory "/") eqn:Hslash.
  - apply basename_go_directory; [done|]. by apply endswith_last_char.
  - change ("/" +:+ filename) with (String "/" filename).
    by rewrite basename_go_slash, basename_go_no_slash.
Qed.

Section hints.
Implicit Types (attributes : gmap string string) (hints : list (string * string)).

Lemma add_model_hints_other attributes hints (k : string) :
  (∀ key, key ∈ hints.*1 → "model.hint." +:+ key ≠ k) →
  foldl add_model_hint attributes hints !! k = attributes !! k.
Proof.
  revert attributes. induction hints as [|hint hints IH]; intros attributes Hk.
  - done.
  - cbn [foldl]. rewrite IH.
    + unfold add_model_hint. apply lookup_insert_ne. apply Hk. left.
    + intros key Hkey. apply Hk. by right.
Qed.

Lemma add_model_hints_hint attributes hints (key value : string) :
  NoDup hints.*1 → (key, value) ∈ hints →
  foldl add_model_hint attributes hints !! ("model.hint." +:+ key) = Some value.
Proof.
  revert attributes. induction hints as [|hint hints IH]; intros attributes Hnodup Hin.
  - by apply elem_of_nil in Hin.
  - rewrite fmap_cons in Hnodup. apply NoDup_cons in Hnodup as [Hfresh Hnodup].
    cbn [foldl]. apply elem_of_cons in Hin as [<-|Hin]; [|by apply IH].
    rewrite add_model_hints_other.
    + apply lookup_insert_eq.
    + intros key' Hkey' Heq. apply (inj (String.app "model.hint.")) in Heq.
      by subst key'.
Qed.

Lemma add_model_hints_is_Some attributes hints (k : string) :
  is_Some (foldl add_model_hint attributes hints !! k) →
  is_Some (attributes !! k)
  ∨ ∃ key, key ∈ hints.*1 ∧ k = "model.hint." +:+ key.
Proof.
  revert attributes. induction hints as [|hint hints IH]; intros attributes.
  - by left.
  - cbn [foldl]. intros [Hk|(key & Hkey & ->)]%IH.
    + unfold add_model_hint in Hk. rewrite lookup_insert in Hk.
      case_decide as Heq; [|by left].
      right. exists hint.1. split; [by left|done].
    + right. exists key. split; [by right|done].
Qed.
End hints.

(** X15: the OpenTelemetry attributes of a template always hold its
    name, version, author, date, fingerprint and comma-joined tags under
    the [prompt.*] keys, and every model hint under [model.hint.<key>];
    hints never overwrite a [prompt.*] attribute, and there is no
    attribute besides these.  [prompt.file] is the last component of the
    file path. *)
Theorem otel_attributes_complete (self : PromptTemplate) :
  get_otel_attributes self !! "prompt.name" = Some (name self)
  ∧ get_otel_attributes self !! "prompt.version" = Some (version self)
  ∧ get_otel_attributes self !! "prompt.author" = Some (author self)
  ∧ get_otel_attributes self !! "prompt.date" = Some (date self)
  ∧ get_otel_attributes self !! "prompt.hash" = Some (content_hash self)
  ∧ get_otel_attributes self !! "prompt.tags" = Some (join "," (tags self))
  ∧ get_otel_attributes self !! "prompt.file" = Some (basename (file_path self))
  ∧ (∀ key, get_otel_attributes self !! ("model.hint." +:+ key)
            = model_hints self !! key)
  ∧ (∀ k, is_Some (get_otel_attributes self !! k) →
          k ∈ ["prompt.name"; "prompt.version"; "prompt.author"; "prompt.date";
               "prompt.hash"; "prompt.tags"; "prompt.file"]
          ∨ ∃ key, k = "model.hint." +:+ key ∧ is_Some (model_hints self !! key)).
Proof.
  unfold get_otel_attributes.
  set (base := <["prompt.file" := _]> _).
  assert (∀ k, (∀ key, "model.hint." +:+ key ≠ k) →
               foldl add_model_hint base (map_to_list (model_hints self)) !! k
               = base !! k) as Hbase.
  { intros k Hk. apply add_model_hints_other. intros key _. apply Hk. }
  assert (∀ key, base !! ("model.hint." +:+ key) = None) as Hfresh.
  { intros key. unfold base. by repeat (rewrite lookup_insert_ne by done). }
  assert (∀ key, foldl add_model_hint base (map_to_list (model_hints self))
                   !! ("model.hint." +:+ key) = model_hints self !! key) as Hhint.
  { intros key. destruct (model_hints self !! key) as [value|] eqn:Hvalue.
    - apply add_model_hints_hint; [apply NoDup_fst_map_to_list|].
      by apply elem_of_map_to_list.
    - rewrite add_model_hints_other; [apply Hfresh|].
      intros key' Hkey' Heq. apply (inj (String.app "model.hint.")) in Heq.
      subst key'. apply list_elem_of_fmap in Hkey' as ([k v] & -> & Hin).
      apply elem_of_map_to_list in Hin. cbn in Hvalue. congruence. }
  split_and!; try (rewrite Hbase by done; done); [done|].
  intros k [Hk|(key & Hkey & ->)]%add_model_hints_is_Some.
  - left. destruct Hk as [value Hk]. unfold base in Hk.
    repeat (apply lookup_insert_Some in Hk as [[<- _]|[_ Hk]];
            [by repeat constructor|]).
    by rewrite lookup_empty in Hk.
  - right. exists key. split; [done|].
    apply list_elem_of_fmap in Hkey as ([k v] & -> & Hin).
    apply elem_of_map_to_list in Hin. by eexists.
Qed.

(** * Further properties of the research loop *)

Lemma invoke_tools_first_unserved (env : Env) (pre rest : list ToolCall)
    (e : PyError) :
  (∀ c, c ∈ pre → served env c) →
  invoke_tools (tools_by_name env) rest = Raise e →
  invoke_tools (tools_by_name env) (pre ++ rest) = Raise e.
Proof.
  intros Hserved Hrest. induction pre as [|c pre IH]; [done|].
  destruct (Hserved c) as (tool & observation & Htool & Hobs); [by left|].
  rewrite <- app_comm_cons. cbn [invoke_tools]. rewrite Htool.
  cbn [mbind result_bind]. rewrite Hobs. cbn [mbind result_bind].
  rewrite IH; [done|]. intros c' Hc'. apply Hserved. by right.
Qed.

(** X16: a tool step fails as a whole on the first request that cannot
    be served: when the requests before it are served and its tool is not
    registered, the step raises [KeyError] with that tool's name; when its
    tool raises, the step raises the same error.  In both cases no
    tool-result turn is appended and the graph does not go on. *)
Theorem tool_node_first_failure
    (env : Env) (state : ResearcherState) (text : string)
    (pre post : list ToolCall) (call : ToolCall) :
  last (researcher_messages state) = Some (AIMessage text (pre ++ call :: post)) →
  (∀ c, c ∈ pre → served env c) →
  (tools_by_name env !! tc_name call = None →
     tool_node env state = Raise (KeyError (tc_name call))
     ∧ graph_step env node_tool_node state = Raise (KeyError (tc_name call)))
  ∧ (∀ tool e,
       tools_by_name env !! tc_name call = Some tool →
       tool (tc_args call) = Raise e →
       tool_node env state = Raise e
       ∧ graph_step env node_tool_node state = Raise e).
Proof.
  intros Hlast Hserved. unfold graph_step. cbn [run_node].
  unfold tool_node, last_message. rewrite Hlast. cbn [mbind result_bind tool_calls].
  split.
  - intros Hnone.
    rewrite (invoke_tools_first_unserved env pre _ (KeyError (tc_name call)));
      [done|done|]. cbn [invoke_tools]. by rewrite Hnone.
  - intros tool e Htool He.
    rewrite (invoke_tools_first_unserved env pre _ e); [done|done|].
    cbn [invoke_tools]. rewrite Htool. cbn [mbind result_bind]. by rewrite He.
Qed.

Lemma tool_node_first_failure_witness :
  tool_node agent_env
    (session [HumanMessage "q"; AIMessage "A" [search_call; unknown_call; think_call]]
             EmptyString)
  = Raise (KeyError "web_browse").
Proof.
  refine (proj1 (proj1 (tool_node_first_failure agent_env
            (session [HumanMessage "q";
                      AIMessage "A" [search_call; unknown_call; think_call]]
                     EmptyString)
            "A" [search_call] [think_call] unknown_call eq_refl _) _)).
  - intros c ->%list_elem_of_singleton.
    exists (fun _ => Ok "results"), "results". by vm_compute.
  - by vm_compute.
Defined.

Lemma last_message_snoc (messages : list Message) (m : Message) :
  last_message (messages ++ [m]) = Ok m.
Proof. unfold last_message. by rewrite last_snoc. Qed.

Lemma llm_call_step
    (env : Env) (state state' : ResearcherState) (node' : Node) :
  graph_step env node_llm_call state = Ok (node', state') →
  ∃ system_prompt text calls,
    model_with_tools env (SystemMessage system_prompt :: researcher_messages state)
    = Ok (AIMessage text calls)
    ∧ researcher_messages state'
      = researcher_messages state ++ [AIMessage text calls]
    ∧ node' = match calls with
              | [] => node_compress_research
              | _ :: _ => node_tool_node
              end
    ∧ tool_call_iterations state' = tool_call_iterations state
    ∧ research_topic state' = research_topic state
    ∧ compressed_research state' = compressed_research state
    ∧ raw_notes state' = raw_notes state
    ∧ qa_report state' = qa_report state.
Proof.
  unfold graph_step. cbn [run_node]. unfold llm_call.
  destruct (get_prompt _ _ _) as [prompt|]; [|done]. cbn [mbind result_bind].
  destruct (render _ _) as [system_prompt|]; [|done]. cbn [mbind result_bind].
  destruct (model_with_tools env _) as [response|] eqn:Hresponse; [|done].
  cbn [mbind result_bind next_node]. unfold should_continue.
  cbn [apply_update researcher_messages upd_researcher_messages default
       from_option id].
  rewrite last_message_snoc. cbn [mbind result_bind].
  destruct response as [c|c|text calls|c tn ti]; try done.
  cbn [tool_calls mbind result_bind]. intros Hstep.
  exists system_prompt, text, calls.
  destruct calls; cbn in Hstep; injection Hstep as <- <-; by split_and!.
Qed.

(** X17: a decision step that completes appends exactly one turn, the
    assistant turn the decision model answered to the system prompt
    followed by the conversation; the system prompt itself is not stored.
    The graph goes on to the tool node when that turn requests tools and
    to compression when it does not; the other fields of the state are
    unchanged. *)
Theorem llm_call_appends_one_turn
    (env : Env) (state state' : ResearcherState) (node' : Node) :
  graph_step env node_llm_call state = Ok (node', state') →
  ∃ system_prompt text calls,
    model_with_tools env (SystemMessage system_prompt :: researcher_messages state)
    = Ok (AIMessage text calls)
    ∧ researcher_messages state'
      = researcher_messages state ++ [AIMessage text calls]
    ∧ node' = match calls with
              | [] => node_compress_research
              | _ :: _ => node_tool_node
              end
    ∧ tool_call_iterations state' = tool_call_iterations state
    ∧ research_topic state' = research_topic state
    ∧ compressed_research state' = compressed_research state
    ∧ raw_notes state' = raw_notes state
    ∧ qa_report state' = qa_report state.
Proof. apply llm_call_step. Qed.

Lemma llm_call_appends_one_turn_witness :
  ∃ state', graph_step eager_env node_llm_call (session [HumanMessage "q"] EmptyString)
            = Ok (node_tool_node, state')
            ∧ researcher_messages state'
              = [HumanMessage "q"; AIMessage "searching" [search_call]].
Proof.
  assert (∃ state', graph_step eager_env node_llm_call
                      (session [HumanMessage "q"] EmptyString)
                    = Ok (node_tool_node, state')) as [state' Hstep].
  { eexists. by vm_compute. }
  exists state'. split; [done|].
  destruct (llm_call_appends_one_turn eager_env
              (session [HumanMessage "q"] EmptyString) state' node_tool_node Hstep)
    as (system_prompt & text & calls & Hmodel & Hmessages & _).
  rewrite Hmessages. vm_compute in Hmodel. by injection Hmodel as <- <-.
Defined.

(** X18: a decision step followed by a tool step keeps the conversation
    well formed: the turns appended are one assistant turn with at least
    one request and then one tool-result turn per request, in the order
    of the requests, each carrying the name and the identifier of its
    request and the observation of that request's tool; control is back
    at the decision node. *)
Theorem decision_then_tools_pairs_results
    (env : Env) (state state1 state2 : ResearcherState) (node2 : Node) :
  graph_step env node_llm_call state = Ok (node_tool_node, state1) →
  graph_step env node_tool_node state1 = Ok (node2, state2) →
  node2 = node_llm_call
  ∧ ∃ text calls results,
      calls ≠ []
      ∧ researcher_messages state2
        = researcher_messages state ++ AIMessage text calls :: results
      ∧ Forall2 (fun result call =>
                   ∃ tool observation,
                     tools_by_name env !! tc_name call = Some tool
                     ∧ tool (tc_args call) = Ok observation
                     ∧ result = ToolMessage observation (tc_name call) (tc_id call))
                results calls.
Proof.
  intros (system_prompt & text & calls & _ & Hmessages & Hnode & _)
           %llm_call_step.
  destruct calls as [|call calls]; [done|]. clear Hnode.
  unfold graph_step. cbn [run_node next_node]. unfold tool_node.
  rewrite Hmessages, last_message_snoc. cbn [mbind result_bind tool_calls].
  destruct (invoke_tools _ _) as [observations|] eqn:Hrun; [|done].
  cbn [mbind result_bind]. intros [= <- <-]. split; [done|].
  exists text, (call :: calls), (tool_outputs observations (call :: calls)).
  split; [done|]. split.
  { cbn. rewrite Hmessages. by rewrite <- app_assoc. }
  destruct (invoke_tools_Ok env _ _ Hrun) as [Hlen Hnth].
  apply Forall2_same_length_lookup. split.
  { by rewrite tool_outputs_length. }
  intros i result c Hresult Hc.
  destruct (Hnth i c Hc) as (tool & observation & Htool & Hobs & Hi).
  exists tool, observation. split; [done|]. split; [done|].
  rewrite (tool_outputs_lookup _ _ _ observation c) in Hresult by done.
  by injection Hresult as <-.
Qed.

Lemma decision_then_tools_pairs_results_witness :
  ∃ state1 state2,
    graph_step eager_env node_llm_call (session [HumanMessage "q"] EmptyString)
    = Ok (node_tool_node, state1)
    ∧ graph_step eager_env node_tool_node state1 = Ok (node_llm_call, state2)
    ∧ ∃ text calls results,
        calls ≠ []
        ∧ researcher_messages state2
          = researcher_messages (session [HumanMessage "q"] EmptyString)
              ++ AIMessage text calls :: results
        ∧ Forall2 (fun result call =>
                     ∃ tool observation,
                       tools_by_name eager_env !! tc_name call = Some tool
                       ∧ tool (tc_args call) = Ok observation
                       ∧ result
                         = ToolMessage observation (tc_name call) (tc_id call))
                  results calls.
Proof.
  assert (∃ state1 state2,
            graph_step eager_env node_llm_call
              (session [HumanMessage "q"] EmptyString)
            = Ok (node_tool_node, state1)
            ∧ graph_step eager_env node_tool_node state1
              = Ok (node_llm_call, state2))
    as (state1 & state2 & Hstep1 & Hstep2).
  { eexists _, _. split; by vm_compute. }
  exists state1, state2. split; [done|]. split; [done|].
  apply (decision_then_tools_pairs_results eager_env _ state1 state2
           node_llm_call Hstep1 Hstep2).
Defined.

(** X19: compression and assessment leave the conversation as it is.  A
    compression step that completes goes on to assessment with the
    compression model's answer as the compressed research and a single raw
    note; an assessment step that completes then ends the run, with the QA
    model's answer to the QA prompt rendered with that compressed research
    as the QA report and every other field unchanged. *)
Theorem compress_then_assess
    (env : Env) (state state1 : ResearcherState) (node1 : Node) :
  graph_step env node_compress_research state = Ok (node1, state1) →
  node1 = node_assess_quality
  ∧ researcher_messages state1 = researcher_messages state
  ∧ length (raw_notes state1) = 1
  ∧ (∃ system_message human_message response,
       compress_model env
         (SystemMessage system_message :: researcher_messages state
            ++ [HumanMessage human_message]) = Ok response
       ∧ compressed_research state1 = content response)
  ∧ ∀ node2 state2,
      graph_step env node_assess_quality state1 = Ok (node2, state2) →
      node2 = END
      ∧ researcher_messages state2 = researcher_messages state
      ∧ compressed_research state2 = compressed_research state1
      ∧ raw_notes state2 = raw_notes state1
      ∧ ∃ prompt text answer,
          get_prompt (new_prompt_manager env) "geologic_qa_prompt_user"
            (Some "v1.0.0") = Ok prompt
          ∧ render prompt {[ "research_report" := compressed_research state1 ]}
            = Ok text
          ∧ qa_model env [HumanMessage text] = Ok answer
          ∧ qa_report state2 = content answer.
Proof.
  unfold graph_step at 1. cbn [run_node next_node]. unfold compress_research.
  destruct (get_prompt _ "compress_research_prompt_system" _); [|done].
  cbn [mbind result_bind].
  destruct (render _ _) as [system_message|]; [|done]. cbn [mbind result_bind].
  destruct (get_prompt _ "compress_research_prompt_user" _); [|done].
  cbn [mbind result_bind].
  destruct (render _ _) as [human_message|]; [|done]. cbn [mbind result_bind].
  destruct (compress_model env _) as [response|] eqn:Hresponse; [|done].
  cbn [mbind result_bind]. intros [= <- <-]. cbn.
  split; [done|]. split; [by rewrite app_nil_r|]. split; [done|]. split.
  { by exists system_message, human_message, response. }
  intros node2 state2. unfold graph_step, assess_quality, assess_quality_messages.
  cbn [run_node next_node compressed_research].
  destruct (get_prompt _ "geologic_qa_prompt_user" _) as [prompt|]; [|done].
  cbn [mbind result_bind].
  destruct (render prompt _) as [text|] eqn:Htext; [|done]. cbn [mbind result_bind].
  destruct (qa_model env _) as [answer|] eqn:Hanswer; [|done].
  cbn [mbind result_bind]. intros [= <- <-]. cbn.
  split; [done|]. split; [by rewrite !app_nil_r|]. split; [done|]. split; [done|].
  by exists prompt, text, answer.
Qed.

Lemma compress_then_assess_witness :
  ∃ state1 state2,
    graph_step agent_env node_compress_research
      (session [HumanMessage "q"; AIMessage "B" []] EmptyString)
    = Ok (node_assess_quality, state1)
    ∧ graph_step agent_env node_assess_quality state1 = Ok (END, state2)
    ∧ researcher_messages state2 = [HumanMessage "q"; AIMessage "B" []]
    ∧ compressed_research state2 = compressed_research state1.
Proof.
  assert (∃ state1 state2,
            graph_step agent_env node_compress_research
              (session [HumanMessage "q"; AIMessage "B" []] EmptyString)
            = Ok (node_assess_quality, state1)
            ∧ graph_step agent_env node_assess_quality state1 = Ok (END, state2))
    as (state1 & state2 & Hstep1 & Hstep2).
  { eexists _, _. split; by vm_compute. }
  exists state1, state2. split; [done|]. split; [done|].
  destruct (compress_then_assess agent_env _ state1 node_assess_quality Hstep1)
    as (_ & _ & _ & _ & Hassess).
  destruct (Hassess END state2 Hstep2) as (_ & Hmessages & Hcompressed & _).
  by split.
Defined.

(** * Further properties of the stored templates *)

Lemma hexdigit_is_hex (x : Z) : is_hex_digit (SHA256.hexdigit x) = true.
Proof.
  unfold SHA256.hexdigit. generalize (Z.land x 15). intros z.
  destruct z as [|p|p]; [done| |done].
  do 5 (try destruct p as [p|p|]); reflexivity.
Qed.

Lemma content_hash_of_hex (body : string) :
  all_chars is_hex_digit (content_hash_of body) = true.
Proof.
  unfold content_hash_of, SHA256.hexdigest.
  generalize (SHA256.digest (SHA256.bytes_of_string body)). intros s.
  unfold SHA256.hex8, slice_to. cbn [String.substring all_chars].
  by rewrite !hexdigit_is_hex.
Qed.

(** ** Surrounding white space *)

Lemma last_char_cons (a : ascii) (s : string) (c : ascii) :
  last_char s = Some c → last_char (String a s) = Some c.
Proof. by destruct s. Qed.

Section skip_space.
Context (two : ascii → ascii → bool) (three : ascii → ascii → ascii → bool).

Lemma skip_space_ends (n : nat) (s : string) :
  String.length s ≤ n →
  (∀ c, first_char (skip_space two three s) = Some c → isspace c = false)
  ∧ (∀ c, last_char (skip_space two three s) = Some c → last_char s = Some c).
Proof.
  revert s. induction n as [|n IH]; intros s Hlen.
  { destruct s; [done|]. cbn in Hlen. lia. }
  destruct s as [|a s1]; [done|]. cbn [skip_space].
  cbn [String.length] in Hlen.
  destruct (isspace a) eqn:Ha.
  { destruct (IH s1) as [Hfirst Hlast]; [lia|]. split; [done|].
    intros x Hx. by apply last_char_cons, Hlast. }
  destruct s1 as [|b s2].
  { split; [|done]. cbn. by intros x [= <-]. }
  cbn [String.length] in Hlen.
  destruct (two a b).
  { destruct (IH s2) as [Hfirst Hlast]; [lia|]. split; [done|].
    intros x Hx. by apply last_char_cons, last_char_cons, Hlast. }
  destruct s2 as [|c s3].
  { split; [|done]. cbn. by intros x [= <-]. }
  cbn [String.length] in Hlen.
  destruct (three a b c).
  { destruct (IH s3) as [Hfirst Hlast]; [lia|]. split; [done|].
    intros x Hx. by apply last_char_cons, last_char_cons, last_char_cons, Hlast. }
  split; [|done]. cbn. by intros x [= <-].
Qed.

Lemma first_char_skip_space (s : string) (c : ascii) :
  first_char (skip_space two three s) = Some c → isspace c = false.
Proof. by apply (skip_space_ends (String.length s)). Qed.

Lemma last_char_skip_space (s : string) (c : ascii) :
  last_char (skip_space two three s) = Some c → last_char s = Some c.
Proof. by apply (skip_space_ends (String.length s)). Qed.
End skip_space.

Lemma strip_has_no_surrounding_space (s : string) :
  (∀ c, first_char (strip s) = Some c → isspace c = false)
  ∧ (∀ c, last_char (strip s) = Some c → isspace c = false).
Proof.
  unfold strip, rstrip, lstrip, String.rev. split; intros c.
  - rewrite first_char_rev_app. cbn [first_char].
    destruct (last_char (skip_space _ _ _)) as [c'|] eqn:Hlast; [|done].
    intros [= ->]. apply last_char_skip_space in Hlast.
    rewrite last_char_rev_app in Hlast. cbn [last_char] in Hlast.
    by apply first_char_skip_space in Hlast.
  - rewrite last_char_rev_app. cbn [last_char]. apply first_char_skip_space.
Qed.

(** X20: every template resolved from a freshly built manager has a
    body without leading or trailing ASCII white space, and a fingerprint
    of twelve lowercase hexadecimal digits. *)
Theorem resolved_template_is_stripped_and_fingerprinted
    (fs : FileSystem) (dir n : string) (v : option string) (t : PromptTemplate) :
  get_prompt (PromptManager_init fs dir) n v = Ok t →
  (∀ c, first_char (template t) = Some c → isspace c = false)
  ∧ (∀ c, last_char (template t) = Some c → isspace c = false)
  ∧ String.length (content_hash t) = 12
  ∧ all_chars is_hex_digit (content_hash t) = true.
Proof.
  intros (loaded & w & Hloaded & _ & Ht)%get_prompt_Ok.
  destruct (PromptManager_init_ok fs dir n loaded Hloaded w t Ht) as (_ & _ & Hhash).
  destruct (loaded_from_file fs dir n loaded w t Hloaded Ht)
    as (filename & post & _ & _ & _ & _ & Hbody).
  rewrite Hbody, Hhash.
  destruct (strip_has_no_surrounding_space (post_content post)) as [Hfirst Hlast].
  split; [done|]. split; [done|].
  split; [apply content_hash_of_length|apply content_hash_of_hex].
Qed.

Lemma resolved_template_is_stripped_and_fingerprinted_witness :
  ∃ t, get_prompt twin_store "b" None = Ok t
       ∧ template t = "same body"
       ∧ all_chars is_hex_digit (content_hash t) = true.
Proof.
  assert (∃ t, get_prompt twin_store "b" None = Ok t ∧ template t = "same body")
    as (t & Ht & Hbody).
  { eexists. split; by vm_compute. }
  exists t. split; [done|]. split; [done|].
  by destruct (resolved_template_is_stripped_and_fingerprinted
                 twin_fs "prompts" "b" None t Ht) as (_ & _ & _ & Hhex).
Defined.

(** ** File names and versions *)

Lemma rev_app_append (a b acc : string) :
  String.rev_app (a +:+ b) acc = String.rev_app b (String.rev_app a acc).
Proof.
  revert acc. induction a as [|c a IH]; intros acc; [done|].
  rewrite append_cons. cbn [String.rev_app]. apply IH.
Qed.

Lemma endswith_md (v : string) : endswith (v +:+ ".md") ".md" = true.
Proof.
  unfold endswith, String.rev. rewrite rev_app_append. cbn [String.rev_app].
  cbn. by destruct (String.rev_app v EmptyString).
Qed.

Lemma replace_md_suffix (v : string) :
  occurs ".md" v = false → replace (v +:+ ".md") ".md" EmptyString = v.
Proof.
  unfold replace. induction v as [|c v IH]; [done|].
  cbn [occurs]. intros [Hhere Hlater]%orb_false_elim.
  rewrite append_cons. cbn [replace_go].
  assert (String.prefix ".md" (String c (v +:+ ".md")) = false) as ->.
  { cbn [String.prefix] in Hhere |- *.
    destruct (ascii_dec "." c) as [_|]; [|done].
    destruct v as [|d v]; [by vm_compute|].
    rewrite append_cons. cbn [String.prefix] in Hhere |- *.
    destruct (ascii_dec "m" d) as [_|]; [|done].
    destruct v as [|e v]; [by vm_compute|].
    rewrite append_cons. cbn [String.prefix] in Hhere |- *.
    destruct (ascii_dec "d" e) as [_|]; [|done].
    by destruct v. }
  by rewrite IH.
Qed.

(** X21: [reload] shows what is on disk now and nothing else, whatever
    the manager had cached.  After reloading, a parsable file [v.md] in a
    declared prompt's directory makes version [v] resolvable under that
    name (for [v] without [.md] inside and other than ["latest"]); and a
    version resolves only if a parsable [.md] file of that directory
    gives it, so a version whose file was removed is gone. *)
Theorem reload_shows_the_files_on_disk
    (fs : FileSystem) (pm : PromptManager) (n v : string) :
  v ≠ "latest" →
  (∀ listing post,
     is_Some (prompts (_load_manifest fs) !! n) →
     fs_listdir fs !! n = Some listing →
     (v +:+ ".md", Ok post) ∈ listing →
     occurs ".md" v = false →
     ∃ t, get_prompt (reload fs pm) n (Some v) = Ok t
          ∧ name t = n ∧ version t = v)
  ∧ (∀ t, get_prompt (reload fs pm) n (Some v) = Ok t →
       ∃ listing filename post,
         fs_listdir fs !! n = Some listing
         ∧ (filename, Ok post) ∈ listing
         ∧ endswith filename ".md" = true
         ∧ v = replace filename ".md" EmptyString
         ∧ template t = strip (post_content post)).
Proof.
  intros Hv.
  change (reload fs pm) with (PromptManager_init fs (prompts_dir pm)).
  set (dir := prompts_dir pm). split.
  - intros listing post [config Hconfig] Hdir Hin Hclean.
    assert (cache (PromptManager_init fs dir) !! n
            = Some (foldl (load_version_file dir n) ∅ listing)) as Hcache.
    { by rewrite cache_init_lookup, Hconfig, Hdir. }
    rewrite (get_prompt_explicit _ n v _ Hcache) by done.
    destruct (load_listing_loaded dir n listing ∅ (v +:+ ".md") post Hin
                (endswith_md v)) as [t Ht].
    rewrite replace_md_suffix in Ht by done. rewrite Ht. exists t.
    split; [done|].
    by destruct (PromptManager_init_ok fs dir n _ Hcache v t Ht) as (? & ? & _).
  - intros t (loaded & w & Hloaded & Hw & Ht)%get_prompt_Ok.
    cbn [resolve_version] in Hw. apply String.eqb_neq in Hv.
    rewrite Hv in Hw. injection Hw as <-.
    destruct (loaded_from_file fs dir n loaded v t Hloaded Ht)
      as (filename & post & (listing & Hdir & Hin) & Hmd & Hname & _ & Hbody).
    by exists listing, filename, post.
Qed.

Lemma reload_shows_the_files_on_disk_witness :
  (∃ t, get_prompt (reload padded_fs stale_store) "greeting" (Some "v2") = Ok t
        ∧ name t = "greeting" ∧ version t = "v2")
  ∧ (∀ t, get_prompt (reload padded_fs stale_store) "greeting" (Some "v2") = Ok t →
       template t = "Hello {name}")
  ∧ ¬ is_Ok (get_prompt (reload drafts_fs greeting_store) "greeting" (Some "v2")).
Proof.
  split; [|split].
  - refine (proj1 (reload_shows_the_files_on_disk padded_fs stale_store
                     "greeting" "v2" _) _
                  (mkPost no_metadata
                     (nbsp +:+ " Hello {name}" +:+ line_separator +:+ newline))
                  _ _ _ _).
    + done.
    + eexists. by vm_compute.
    + by vm_compute.
    + left.
    + by vm_compute.
  - intros t Ht.
    destruct (proj2 (reload_shows_the_files_on_disk padded_fs stale_store
                       "greeting" "v2" ltac:(done)) t Ht)
      as (listing & filename & post & Hdir & Hin & _ & _ & Hbody).
    vm_compute in Hdir. injection Hdir as <-.
    apply list_elem_of_singleton in Hin. injection Hin as _ ->.
    rewrite Hbody. by vm_compute.
  - intros [t Ht].
    destruct (proj2 (reload_shows_the_files_on_disk drafts_fs greeting_store
                       "greeting" "v2" ltac:(done)) t Ht)
      as (listing & filename & post & Hdir & _).
    by vm_compute in Hdir.
Defined.

(** ** Telemetry of loaded templates *)

Lemma otel_prompt_file (self : PromptTemplate) :
  get_otel_attributes self !! "prompt.file" = Some (basename (file_path self)).
Proof.
  unfold get_otel_attributes. rewrite add_model_hints_other; [|done].
  apply lookup_insert_eq.
Qed.

(** X22: for a template resolved from a freshly built manager the
    [prompt.file] attribute is the name of the [.md] file it was read
    from, the version being that name with [.md] removed (file names, as
    [os.listdir] gives them, hold no slash). *)
Theorem otel_file_is_the_asset_name
    (fs : FileSystem) (dir n : string) (v : option string) (t : PromptTemplate) :
  (∀ listing entry, fs_listdir fs !! n = Some listing → entry ∈ listing →
     all_chars (fun c => negb (is_char c "/")) entry.1 = true) →
  get_prompt (PromptManager_init fs dir) n v = Ok t →
  ∃ filename,
    get_otel_attributes t !! "prompt.file" = Some filename
    ∧ endswith filename ".md" = true
    ∧ version t = replace filename ".md" EmptyString.
Proof.
  intros Hnames (loaded & w & Hloaded & _ & Ht)%get_prompt_Ok.
  destruct (PromptManager_init_ok fs dir n loaded Hloaded w t Ht) as (_ & -> & _).
  destruct (loaded_from_file fs dir n loaded w t Hloaded Ht)
    as (filename & post & (listing & Hdir & Hin) & Hmd & Hw & Hpath & _).
  exists filename. rewrite otel_prompt_file, Hpath.
  rewrite basename_path_join by apply (Hnames listing (filename, Ok post) Hdir Hin).
  done.
Qed.

Lemma otel_file_is_the_asset_name_witness :
  ∃ filename t,
    get_prompt greeting_store "greeting" None = Ok t
    ∧ get_otel_attributes t !! "prompt.file" = Some filename
    ∧ endswith filename ".md" = true
    ∧ version t = replace filename ".md" EmptyString.
Proof.
  assert (∃ t, get_prompt greeting_store "greeting" None = Ok t) as [t Ht].
  { eexists. by vm_compute. }
  destruct (otel_file_is_the_asset_name greeting_fs "prompts" "greeting" None t)
    as (filename & Hfile & Hmd & Hversion); [|exact Ht|].
  - intros listing entry Hdir Hin. vm_compute in Hdir. injection Hdir as <-.
    repeat (apply elem_of_cons in Hin as [->|Hin]; [by vm_compute|]).
    destruct (proj1 (elem_of_nil entry) Hin).
  - exists filename, t. split; [exact Ht|]. split; [exact Hfile|].
    split; [exact Hmd|exact Hversion].
Defined.

(** X23: the Langfuse tag list is the name, the version and the tags
    joined by commas when the template has tags; without tags it is the
    name and the version each followed by a comma, so it ends with an
    empty entry. *)
Theorem langfuse_tags_value (self : PromptTemplate) :
  get_langfuse_metadata self !! "langfuse.tags"
  = Some (match tags self with
          | [] => name self +:+ "," +:+ version self +:+ ","
          | _ :: _ => join "," (name self :: version self :: tags self)
          end)
  ∧ get_langfuse_metadata self !! "langfuse.metadata.prompt_tags"
    = Some (join "," (tags self)).
Proof.
  unfold get_langfuse_metadata. rewrite lookup_insert_eq.
  rewrite lookup_insert_ne by done. rewrite lookup_insert_ne by done.
  rewrite lookup_insert_eq. split; [|done].
  by destruct (tags self).
Qed.

(** * Which errors are raised *)

Lemma scan_step_fail (st : Scan) (c : ascii) (e : PyError) :
  scan_step st c = Fail e → ∃ msg, e = ValueError msg.
Proof.
  assert (∀ fname bracket, name_step fname bracket c = Fail e →
            ∃ msg, e = ValueError msg) as Hname.
  { intros fname bracket. unfold name_step.
    repeat case_match; intros [= <-]; by eexists. }
  destruct st; cbn [scan_step]; try (by apply Hname).
  - repeat case_match; intros [= <-]; by eexists.
  - destruct (is_char c "{"); [done|].
    destruct (name_step EmptyString false c) eqn:Hstep; [done|].
    intros [= <-]. by eapply Hname.
  - repeat case_match; intros [= <-]; by eexists.
  - done.
  - repeat case_match; intros [= <-]; by eexists.
  - repeat case_match; intros [= <-]; by eexists.
Qed.

Lemma markup_go_stopped (st : Scan) (s : string) (e : PyError) :
  (markup_go st s).2 = Some e → ∃ msg, e = ValueError msg.
Proof.
  revert st. induction s as [|c s IH]; intros st.
  - destruct st; cbn; intros [= <-]; by eexists.
  - rewrite markup_go_cons. destruct (scan_step st c) as [emitted st'|e'] eqn:Hstep.
    + cbn. apply IH.
    + cbn. intros [= <-]. by eapply scan_step_fail.
Qed.

Lemma output_markup_KeyError (expand : string → result string)
    (kwargs : gmap string string) (fname : string)
    (conv : option ascii) (spec : string) (nested : bool) (key : string) :
  output_markup expand kwargs fname conv spec nested = Raise (KeyError key) →
  (key = (split_first fname).1 ∧ all_digits key = false ∧ kwargs !! key = None)
  ∨ (nested = true ∧ expand spec = Raise (KeyError key)).
Proof.
  unfold output_markup, get_field_object.
  destruct (all_digits (split_first fname).1) eqn:Hdigits.
  { by destruct (Nat.ltb _ _). }
  destruct (has_ascii_nondigit _); [|done].
  destruct (kwargs !! (split_first fname).1) as [value|] eqn:Hvalue.
  - destruct (String.eqb _ _); [|done]. cbn [mbind result_bind].
    destruct (do_conversion value conv) as [converted|e] eqn:Hconv.
    + cbn [mbind result_bind]. destruct nested.
      * destruct (expand spec) as [actual|e] eqn:Hspec.
        -- cbn [mbind result_bind]. unfold render_field.
           by destruct (String.eqb actual EmptyString).
        -- cbn [mbind result_bind]. intros [= ->]. by right.
      * cbn [mbind result_bind]. unfold render_field.
        by destruct (String.eqb spec EmptyString).
    + cbn [mbind result_bind]. intros [= ->].
      unfold do_conversion in Hconv. by repeat case_match.
  - cbn. intros [= <-]. by left.
Qed.

Lemma do_markup_KeyError (expand : string → result string)
    (kwargs : gmap string string) (items : list Markup)
    (stopped : option PyError) (out key : string) :
  (∀ e, stopped = Some e → ∃ msg, e = ValueError msg) →
  do_markup expand kwargs items stopped out = Raise (KeyError key) →
  ∃ fname conv spec nested,
    Field fname conv spec nested ∈ items
    ∧ ((key = (split_first fname).1 ∧ all_digits key = false
        ∧ kwargs !! key = None)
       ∨ (nested = true ∧ expand spec = Raise (KeyError key))).
Proof.
  intros Hstopped. revert out.
  induction items as [|[lit|fname conv spec nested] items IH];
    intros out; cbn [do_markup].
  - destruct stopped as [e|]; [|done]. intros [= ->].
    by destruct (Hstopped _ eq_refl).
  - intros (f & c & s & b & Hin & Hkey)%IH. exists f, c, s, b.
    split; [by right|done].
  - destruct (output_markup expand kwargs fname conv spec nested)
      as [value|e] eqn:Hfield.
    + cbn. intros (f & c & s & b & Hin & Hkey)%IH. exists f, c, s, b.
      split; [by right|done].
    + cbn. intros [= ->]. exists fname, conv, spec, nested.
      split; [by left|]. by apply output_markup_KeyError in Hfield.
Qed.



(** * The fallback to the greatest version *)

(** X25: in a loaded store, for a known name with at least one loaded
    version whose manifest entry is a mapping with no latest version, or
    with an empty one, resolving with [None] returns the template whose
    version string is the greatest, in lexicographic order, of the
    versions loaded for that name. *)
Theorem get_prompt_fallback_greatest
    (fs : FileSystem) (dir n : string) (versions : list string)
    (declared : option Declared) :
  list_versions (PromptManager_init fs dir) n = Ok versions →
  versions ≠ [] →
  manifest_latest (PromptManager_init fs dir) n = Ok declared →
  truthy declared = false →
  ∃ t, get_prompt (PromptManager_init fs dir) n None = Ok t
       ∧ name t = n
       ∧ (∃ loaded, cache (PromptManager_init fs dir) !! n = Some loaded
                    ∧ loaded !! version t = Some t)
       ∧ version t ∈ versions
       ∧ ∀ v, v ∈ versions → String.le v (version t).
Proof.
  set (pm := PromptManager_init fs dir).
  unfold list_versions, get_prompt.
  destruct (cache pm !! n) as [loaded|] eqn:Hloaded; [|done].
  intros [= <-] Hne Hdeclared Hfalse.
  cbn [resolve_version].
  rewrite (latest_version_fallback pm n loaded declared) by done.
  destruct (highest_version_greatest n loaded) as (v & -> & Hv & Hmax).
  { intros Hnil. apply Hne. unfold sorted. apply Permutation_nil_r.
    rewrite merge_sort_Permutation. by rewrite Hnil. }
  cbn [mbind result_bind].
  pose proof Hv as [t Ht]%loaded_versions_elem. rewrite Ht. exists t.
  destruct (PromptManager_init_ok fs dir n loaded Hloaded v t Ht) as (Hn & -> & _).
  split; [done|]. split; [done|]. split; [by exists loaded|].
  split; [by apply (proj2 (sorted_elem _ _))|].
  intros v' Hv'. by apply Hmax, (proj1 (sorted_elem _ _)).
Qed.

Lemma get_prompt_fallback_greatest_witness :
  (∃ t, get_prompt greeting_store "notes" None = Ok t
        ∧ name t = "notes"
        ∧ (∃ loaded, cache greeting_store !! "notes" = Some loaded
                     ∧ loaded !! version t = Some t)
        ∧ version t ∈ ["v10"; "v9"]
        ∧ ∀ v, v ∈ ["v10"; "v9"] → String.le v (version t))
  ∧ (version <$> get_prompt greeting_store "notes" None) = Ok "v9".
Proof.
  split; [|by vm_compute].
  apply (get_prompt_fallback_greatest greeting_fs "prompts" "notes"
           ["v10"; "v9"] None); by vm_compute.
Defined.

(** * The remaining operations on examples *)

Example telemetry_of_a_tagged_template :
  get_otel_attributes (tagged_template ["base"; "warm"]) !! "prompt.tags"
  = Some "base,warm"
  ∧ get_otel_attributes (tagged_template ["base"; "warm"]) !! "prompt.file"
    = Some "v2.md"
  ∧ get_otel_attributes (tagged_template ["base"; "warm"]) !! "model.hint.model"
    = Some "gpt-4.1"
  ∧ get_langfuse_metadata (tagged_template ["base"; "warm"]) !! "langfuse.tags"
    = Some "greeting,v2,base,warm"
  ∧ get_langfuse_metadata (tagged_template []) !! "langfuse.tags"
    = Some "greeting,v2,".
Proof. by vm_compute. Qed.

Example load_prompt_builds_a_manager :
  (template <$> load_prompt greeting_fs "greeting" None "prompts")
  = Ok "Hello {name}, welcome"
  ∧ load_prompt greeting_fs "missing" None "prompts"
    = Raise (prompt_not_found "missing").
Proof. by vm_compute. Qed.

Example ab_variants_of_the_greeting :
  (map version <$> get_ab_test_variants greeting_store "greeting" ["v1"; "v2"])
  = Ok ["v1"; "v2"]
  ∧ get_ab_test_variants greeting_store "greeting" ["v1"; "v7"; "v2"]
    = Raise (version_not_found "v7" "greeting").
Proof. by vm_compute. Qed.
